(** * The statistical core of the data-analysis dashboard

    The repository is a pair of Streamlit scripts ([my_first_app.py] and
    [test.py]) that load a table with pandas and show, section by section,
    the column classification, KPI cards, a correlation heatmap and a Welch
    t-test between two groups.  The two scripts share the classification,
    correlation and t-test sections word for word; the KPI section modelled
    here is the one of [test.py].

    Conventions of the embedding:
    - the sections are modelled over exact reals: a cell that may be NaN is
      an [option R] with [None] for NaN, and [fp] adds the two infinities
      for the one quantity (the t statistic) that can reach them;
    - the two library computations whose result depends on rounding, the
      Welch test and the correlation matrix, are modelled a second time in
      [Binary64], on IEEE binary64 numbers, and what is stated of their
      values is stated there;
    - a pandas column is a [series], whose constructor is its dtype;
    - a Python exception is [Raise]; every section returns a [result];
    - what a section shows is the list of [event]s it emits, static markup
      and emoji left out. *)

From Stdlib Require Import Reals Lra Lia List String Bool Arith ZArith.
From Stdlib Require Floats.
Import ListNotations.
Local Open Scope string_scope.
Local Open Scope R_scope.
Local Open Scope list_scope.

(** ** Exceptions *)

Inductive exn := KeyError | TypeError.

Inductive result (A : Type) : Type :=
| Ok (a : A)
| Raise (e : exn).
Arguments Ok {A} a.
Arguments Raise {A} e.

Definition bind {A B} (m : result A) (k : A -> result B) : result B :=
  match m with
  | Ok a => k a
  | Raise e => Raise e
  end.

Notation "x <- m ;; k" := (bind m (fun x => k))
  (at level 61, m at next level, right associativity).

Fixpoint mapM {A B} (f : A -> result B) (l : list A) : result (list B) :=
  match l with
  | [] => Ok []
  | a :: t => b <- f a ;; bs <- mapM f t ;; Ok (b :: bs)
  end.

(** ** Floats with infinities and NaN *)

Inductive fp := Fin (r : R) | PInf | NInf | NaN.

(** IEEE division of two finite numbers, the divisor being non-negative
    (it is always a square root here): [0/0] is NaN and [x/0] is an
    infinity with the sign of [x]. *)
Definition fdiv (a b : R) : fp :=
  if Req_dec_T b 0 then
    if Req_dec_T a 0 then NaN
    else if Rlt_dec 0 a then PInf else NInf
  else Fin (a / b).

(** [x < c] on floats: every comparison with NaN is false. *)
Definition nan_ltb (x : option R) (c : R) : bool :=
  match x with
  | Some r => if Rlt_dec r c then true else false
  | None => false
  end.

(** ** The pandas data model *)

Module Pandas.

(** A column of a DataFrame; the constructor is the dtype.  Missing cells
    are [None] (NaN, NaT or None); a bool column has none. *)
Inductive series :=
| Number (cells : list (option R))
| Object (cells : list (option string))
| Category (cells : list (option string))
| Boolean (cells : list bool)
| Datetime (cells : list (option Z)).

Record column := Column { col_name : string; col_data : series }.

Definition DataFrame := list column.

Definition is_number (s : series) : bool :=
  match s with Number _ => true | _ => false end.

Definition is_object_or_category (s : series) : bool :=
  match s with Object _ | Category _ => true | _ => false end.

(** [df.select_dtypes(include=...)] keeps the columns of the listed dtypes,
    in the order of the frame. *)
Definition select_dtypes (include : series -> bool) (df : DataFrame)
  : DataFrame :=
  filter (fun c => include (col_data c)) df.

(** [df.columns.tolist()] *)
Definition columns (df : DataFrame) : list string := map col_name df.

Definition len (s : series) : nat :=
  match s with
  | Number cells => List.length cells
  | Object cells | Category cells => List.length cells
  | Boolean cells => List.length cells
  | Datetime cells => List.length cells
  end.

Definition isna {A} (c : option A) : bool :=
  match c with Some _ => false | None => true end.

(** [s.isnull()] *)
Definition isnull (s : series) : list bool :=
  match s with
  | Number cells => map isna cells
  | Object cells | Category cells => map isna cells
  | Boolean cells => map (fun _ => false) cells
  | Datetime cells => map isna cells
  end.

(** [df.shape] *)
Definition shape0 (df : DataFrame) : nat :=
  match df with
  | [] => 0%nat
  | c :: _ => len (col_data c)
  end.

Definition shape1 (df : DataFrame) : nat := List.length df.

(** Every column of a frame has the frame's row count. *)
Definition well_formed (df : DataFrame) : Prop :=
  Forall (fun c => len (col_data c) = shape0 df) df.

(** [df[name]]: the column of that name, [KeyError] when there is none.
    The loaders make column names unique. *)
Definition getitem (df : DataFrame) (name : string) : result series :=
  match find (fun c => String.eqb (col_name c) name) df with
  | Some c => Ok (col_data c)
  | None => Raise KeyError
  end.

Fixpoint dropna {A} (cells : list (option A)) : list A :=
  match cells with
  | [] => []
  | Some v :: t => v :: dropna t
  | None :: t => dropna t
  end.

(** [s.unique()] on labels: the distinct values in order of first
    appearance. *)
Fixpoint unique (l : list string) : list string :=
  match l with
  | [] => []
  | x :: t => x :: filter (fun y => negb (String.eqb y x)) (unique t)
  end.

(** [s == g] for a label [g]: false on missing cells. *)
Definition eq_mask (cells : list (option string)) (g : string) : list bool :=
  map (fun c => match c with Some l => String.eqb l g | None => false end)
      cells.

(** [s[mask]] *)
Fixpoint boolean_index {A} (mask : list bool) (cells : list A) : list A :=
  match mask, cells with
  | true :: m, c :: t => c :: boolean_index m t
  | false :: m, _ :: t => boolean_index m t
  | _, _ => []
  end.

Fixpoint Rsum (l : list R) : R :=
  match l with
  | [] => 0
  | x :: t => x + Rsum t
  end.

(** [nansum]: missing cells count as zero. *)
Definition nansum (cells : list (option R)) : R :=
  Rsum (map (fun c => match c with Some v => v | None => 0 end) cells).

(** [s.count()]: the number of non-missing cells. *)
Definition count {A} (cells : list (option A)) : nat :=
  List.length (filter (fun c => negb (isna c)) cells).

(** [nanmean]: the sum over the count, NaN when nothing is present. *)
Definition nanmean (cells : list (option R)) : option R :=
  match count cells with
  | O => None
  | n => Some (nansum cells / INR n)
  end.

(** [s.sum(skipna=True)] and [s.mean(skipna=True)] of a numeric column. *)
Definition sum (s : series) : result R :=
  match s with
  | Number cells => Ok (nansum cells)
  | _ => Raise TypeError
  end.

Definition mean (s : series) : result (option R) :=
  match s with
  | Number cells => Ok (nanmean cells)
  | _ => Raise TypeError
  end.

(** The mean of a column of booleans (True is 1): NaN when it is empty. *)
Definition bool_mean (l : list bool) : option R :=
  match l with
  | [] => None
  | _ => Some (INR (count_occ bool_dec l true) / INR (List.length l))
  end.

(** [df.isnull().mean()]: one float per column. *)
Definition isnull_mean (df : DataFrame) : list (option R) :=
  map (fun c => bool_mean (isnull (col_data c))) df.

(** The cells of a numeric column and the labels of a text column. *)
Definition number_cells (s : series) : result (list (option R)) :=
  match s with
  | Number cells => Ok cells
  | _ => Raise TypeError
  end.

Definition label_cells (s : series) : result (list (option string)) :=
  match s with
  | Object cells | Category cells => Ok cells
  | _ => Raise TypeError
  end.

End Pandas.

(** ** The statistics behind [scipy.stats.ttest_ind] and [DataFrame.corr]

    The formulas of the two library calls in exact arithmetic.  The values
    the libraries compute, every operation rounded, are those of [Binary64]
    below; the two agree on what does not depend on rounding: the rows and
    samples that enter, the counts, the comparisons and the ranks. *)

Module Stats.
Import Pandas.

Definition mean (l : list R) : R := Rsum l / INR (List.length l).

(** Sum of squared deviations from the mean. *)
Definition ssqdm (l : list R) : R :=
  Rsum (map (fun x => (x - mean l) * (x - mean l)) l).

(** Unbiased sample variance ([ddof=1]). *)
Definition var (l : list R) : R := ssqdm l / (INR (List.length l) - 1).

Section Welch.

(** [sf df t]: the survival function of Student's t distribution with [df]
    degrees of freedom, a special function of the numeric library. *)
Variable sf : R -> R -> R.

(** The Welch-Satterthwaite degrees of freedom, as [ttest_ind] computes
    them for [equal_var=False]; the NaN of [0/0] is replaced by 1. *)
Definition welch_df (a b : list R) : R :=
  let n1 := INR (List.length a) in
  let n2 := INR (List.length b) in
  let vn1 := var a / n1 in
  let vn2 := var b / n2 in
  let den := vn1 * vn1 / (n1 - 1) + vn2 * vn2 / (n2 - 1) in
  if Req_dec_T den 0 then 1 else (vn1 + vn2) * (vn1 + vn2) / den.

Definition welch_denom (a b : list R) : R :=
  sqrt (var a / INR (List.length a) + var b / INR (List.length b)).

(** [stats.ttest_ind(a, b, equal_var=False)]: the t statistic and the
    two-tailed p-value, in exact arithmetic; [Binary64.ttest_ind] is the
    computation in double precision. *)
Definition ttest_ind (a b : list R) : fp * option R :=
  let df := welch_df a b in
  let t := fdiv (mean a - mean b) (welch_denom a b) in
  let p :=
    match t with
    | Fin r => Some (2 * sf df (Rabs r))
    | PInf | NInf => Some 0
    | NaN => None
    end in
  (t, p).

End Welch.

(** Pairwise-complete observations of two columns. *)
Fixpoint complete_pairs (xs ys : list (option R)) : list (R * R) :=
  match xs, ys with
  | Some x :: xs', Some y :: ys' => (x, y) :: complete_pairs xs' ys'
  | _ :: xs', _ :: ys' => complete_pairs xs' ys'
  | _, _ => []
  end.

(** Sum of products of deviations. *)
Definition codm (xs ys : list R) : R :=
  Rsum (map (fun p => (fst p - mean xs) * (snd p - mean ys)) (combine xs ys)).

(** Pearson's coefficient of two samples of one length, in exact
    arithmetic; NaN when the divisor vanishes.  [Binary64.nancorr] is the
    computation in double precision. *)
Definition pearson_r (xs ys : list R) : option R :=
  let divisor := sqrt (ssqdm xs * ssqdm ys) in
  if Req_dec_T divisor 0 then None else Some (codm xs ys / divisor).

Definition nancorr (xs ys : list (option R)) : option R :=
  let ps := complete_pairs xs ys in
  if (List.length ps <? 1)%nat then None
  else pearson_r (map fst ps) (map snd ps).

Definition count_lt (l : list R) (x : R) : nat :=
  List.length (filter (fun y => if Rlt_dec y x then true else false) l).

Definition count_eq (l : list R) (x : R) : nat :=
  List.length (filter (fun y => if Req_dec_T y x then true else false) l).

(** The rank of [x] in [l], ties sharing the average of their ranks. *)
Definition rank (l : list R) (x : R) : R :=
  INR (count_lt l x) + (INR (count_eq l x) + 1) / 2.

Definition ranks (l : list R) : list R := map (rank l) l.

Definition nancorr_spearman (xs ys : list (option R)) : option R :=
  let ps := complete_pairs xs ys in
  if (List.length ps <? 1)%nat then None
  else pearson_r (ranks (map fst ps)) (ranks (map snd ps)).

(** The number of unordered pairs of observations that satisfy [f]. *)
Fixpoint pair_count (f : R * R -> R * R -> bool) (ps : list (R * R)) : nat :=
  match ps with
  | [] => 0%nat
  | p :: t => (List.length (filter (f p) t) + pair_count f t)%nat
  end.

Definition concordant (p q : R * R) : bool :=
  if Rlt_dec 0 ((fst p - fst q) * (snd p - snd q)) then true else false.

Definition discordant (p q : R * R) : bool :=
  if Rlt_dec ((fst p - fst q) * (snd p - snd q)) 0 then true else false.

Definition x_untied (p q : R * R) : bool :=
  if Req_dec_T (fst p) (fst q) then false else true.

Definition y_untied (p q : R * R) : bool :=
  if Req_dec_T (snd p) (snd q) then false else true.

(** Kendall's tau-b: NaN when one of the two samples is all ties. *)
Definition kendalltau (ps : list (R * R)) : option R :=
  let con := pair_count concordant ps in
  let dis := pair_count discordant ps in
  let nx := pair_count x_untied ps in
  let ny := pair_count y_untied ps in
  if ((nx =? 0) || (ny =? 0))%nat then None
  else Some ((INR con - INR dis) / (sqrt (INR nx) * sqrt (INR ny))).

Inductive method := pearson | spearman | kendall.

(** One entry of [DataFrame.corr(method)], for the columns at positions
    [i] and [j].  For kendall pandas fills the diagonal with 1.0 whenever
    the column has an observation. *)
Definition corr_entry (m : method) (i j : nat) (xs ys : list (option R))
  : option R :=
  match m with
  | pearson => nancorr xs ys
  | spearman => nancorr_spearman xs ys
  | kendall =>
      let ps := complete_pairs xs ys in
      if (List.length ps <? 1)%nat then None
      else if (i =? j)%nat then Some 1
      else kendalltau ps
  end.

Definition enumerate {A} (l : list A) : list (nat * A) :=
  combine (seq 0 (List.length l)) l.

Definition matrix := list (list (option R)).

(** [frame.corr(method=m)] over numeric columns. *)
Definition corr (m : method) (cols : list (list (option R))) : matrix :=
  map (fun a =>
         map (fun b => corr_entry m (fst a) (fst b) (snd a) (snd b))
             (enumerate cols))
      (enumerate cols).

(** [M[i][j]]; the outer [None] is an index out of range. *)
Definition entry (M : matrix) (i j : nat) : option (option R) :=
  match nth_error M i with
  | Some row => nth_error row j
  | None => None
  end.

End Stats.

(** ** The dashboard script *)

Module Dashboard.
Import Pandas Stats.

(** What a metric widget shows. *)
Inductive value :=
| VInt (z : Z)
| VFloat (x : option R)
| VStat (t : fp).

(** What the page shows, in order.  [Significant] is the [st.success]
    message of the t-test and [NotSignificant] its [st.warning] message;
    both carry the two labels and the two means they print. *)
Inductive event :=
| Subheader (title : string)
| SelectBox (label : string) (options : list string)
| Warning (msg : string)
| Error (msg : string)
| KpiCard (label : string) (col_sum : R) (col_mean : option R)
| Card (label : string) (n : nat)
| Metric (label : string) (v : value)
| Heatmap (m : matrix)
| Significant (group1 : string) (mean1 : option R)
              (group2 : string) (mean2 : option R)
| NotSignificant (group1 : string) (mean1 : option R)
                 (group2 : string) (mean2 : option R)
| BarPlot (x : list string) (y : list (option R)).

(** The user's choice in each select box, as a position in its options. *)
Record selection := Selection {
  sel_method : nat;
  sel_group_col : nat;
  sel_numeric_col : nat;
  sel_group1 : nat;
  sel_group2 : nat
}.

(** [st.selectbox(label, options)]: the chosen option, the first one when
    the stored choice does not fit the options, [None] without options. *)
Definition selectbox {A} (options : list A) (choice : nat) : option A :=
  match nth_error options choice with
  | Some x => Some x
  | None => hd_error options
  end.

(** A [None] choice used as a key raises. *)
Definition chosen {A} (o : option A) : result A :=
  match o with
  | Some a => Ok a
  | None => Raise KeyError
  end.

Definition is_empty {A} (l : list A) : bool :=
  match l with [] => true | _ => false end.

(** *** Column classification *)

Definition categorical_cols (df : DataFrame) : list string :=
  columns (select_dtypes is_object_or_category df).

Definition numeric_cols (df : DataFrame) : list string :=
  columns (select_dtypes is_number df).

(** *** KPI section ([test.py]) *)

Definition top_numeric (numeric_cols : list string) : list string :=
  firstn 3 numeric_cols.

Definition kpi_card (df : DataFrame) (col_name : string) : result event :=
  s <- getitem df col_name ;;
  col_sum <- Pandas.sum s ;;
  col_mean <- Pandas.mean s ;;
  Ok (KpiCard col_name col_sum col_mean).

Definition kpi_cards (df : DataFrame) : result (list event) :=
  mapM (kpi_card df) (top_numeric (numeric_cols df)).

(** [df.isnull().mean().mean()] *)
Definition missing_ratio (df : DataFrame) : option R :=
  nanmean (isnull_mean df).

Definition overview (df : DataFrame) : list event :=
  [ Card "Total Rows" (shape0 df);
    Card "Total Columns" (shape1 df);
    Metric "Total Rows" (VInt (Z.of_nat (shape0 df)));
    Metric "Total Columns" (VInt (Z.of_nat (shape1 df)));
    Metric "Missing Data (%)"
           (VFloat (option_map (fun r => r * 100) (missing_ratio df))) ].

Definition kpi_section (df : DataFrame) : result (list event) :=
  let header := Subheader "Beautiful Auto KPIs Dashboard" in
  if (List.length (numeric_cols df) =? 0)%nat then
    Ok [header; Warning "No numerical columns found to calculate KPIs."]
  else
    cards <- kpi_cards df ;;
    Ok (header :: cards ++ overview df).

(** *** Correlation section *)

Definition methods : list method := [pearson; spearman; kendall].

Definition method_names : list string := ["pearson"; "spearman"; "kendall"].

(** [df[numeric_cols]] as the list of its columns' cells. *)
Definition numeric_frame (df : DataFrame) (names : list string)
  : result (list (list (option R))) :=
  mapM (fun name => s <- getitem df name ;; number_cells s) names.

(** The value of [corr_matrix] after the guard: [None] when the guard
    fails and the matrix is never computed. *)
Definition correlate (df : DataFrame) (m : method) : result (option matrix) :=
  let numeric_cols := numeric_cols df in
  if (2 <=? List.length numeric_cols)%nat then
    frame <- numeric_frame df numeric_cols ;;
    Ok (Some (corr m frame))
  else Ok None.

Definition correlation_section (df : DataFrame) (ui : selection)
  : result (list event) :=
  let widgets :=
    [ Subheader "Correlation Analysis";
      SelectBox "Select Correlation Method" method_names ] in
  corr_method <- chosen (selectbox methods (sel_method ui)) ;;
  corr_matrix <- correlate df corr_method ;;
  match corr_matrix with
  | Some m => Ok (widgets ++ [Heatmap m])
  | None => Ok widgets
  end.

(** *** T-test section *)

(** [df[group_col].dropna().unique()] *)
Definition groups_of (df : DataFrame) (group_col : string)
  : result (list string) :=
  g <- getitem df group_col ;;
  labels <- label_cells g ;;
  Ok (unique (dropna labels)).

(** [df[df[group_col] == group][numeric_col].dropna()] *)
Definition sample (df : DataFrame) (group_col numeric_col group : string)
  : result (list R) :=
  g <- getitem df group_col ;;
  labels <- label_cells g ;;
  n <- getitem df numeric_col ;;
  cells <- number_cells n ;;
  Ok (dropna (boolean_index (eq_mask labels group) cells)).

(** [data.mean()] of a sample without missing values. *)
Definition data_mean (data : list R) : option R := nanmean (map Some data).

Definition not_enough : string :=
  "Not enough data points in one of the groups.".

Section TTest.

Variable sf : R -> R -> R.

(** The body of the section once the two samples are extracted: the guard
    on the sample sizes, the test, its three metrics, the verdict and the
    bar chart of the two means. *)
Definition ttest_block (group1 group2 : string) (data1 data2 : list R)
  : list event :=
  if ((1 <? List.length data1) && (1 <? List.length data2))%nat then
    let '(t_stat, p_value) := ttest_ind sf data1 data2 in
    let mean1 := data_mean data1 in
    let mean2 := data_mean data2 in
    [ Metric "t-statistic" (VStat t_stat);
      Metric "Degrees of Freedom"
             (VInt (Z.of_nat (List.length data1)
                    + Z.of_nat (List.length data2) - 2));
      Metric "p-value" (VFloat p_value);
      (if nan_ltb p_value 0.05
       then Significant group1 mean1 group2 mean2
       else NotSignificant group1 mean1 group2 mean2);
      BarPlot [group1; group2] [mean1; mean2] ]
  else [Error not_enough].

Definition ttest_section (df : DataFrame) (ui : selection)
  : result (list event) :=
  let categorical_cols := categorical_cols df in
  let numeric_cols := numeric_cols df in
  let header := Subheader "Independent T-Test Analysis" in
  if negb (is_empty categorical_cols) && negb (is_empty numeric_cols) then
    group_col <- chosen (selectbox categorical_cols (sel_group_col ui)) ;;
    numeric_col <- chosen (selectbox numeric_cols (sel_numeric_col ui)) ;;
    let selectors :=
      [ header;
        SelectBox "Grouping Column" categorical_cols;
        SelectBox "Numeric Column for T-Test" numeric_cols ] in
    groups <- groups_of df group_col ;;
    if (2 <=? List.length groups)%nat then
      group1 <- chosen (selectbox groups (sel_group1 ui)) ;;
      group2 <- chosen (selectbox groups (sel_group2 ui)) ;;
      data1 <- sample df group_col numeric_col group1 ;;
      data2 <- sample df group_col numeric_col group2 ;;
      Ok (selectors
            ++ [ SelectBox "Select Group 1" groups;
                 SelectBox "Select Group 2" groups ]
            ++ ttest_block group1 group2 data1 data2)
    else Ok selectors
  else Ok [header].

End TTest.

(** *** Reading a run of the t-test section

    The labels the section found in the chosen grouping column, and the two
    labelled samples it extracted; [None] when the run stopped at an
    earlier guard. *)

Definition selected_columns (df : DataFrame) (ui : selection)
  : result (option (string * string)) :=
  if negb (is_empty (categorical_cols df))
     && negb (is_empty (numeric_cols df)) then
    group_col <- chosen (selectbox (categorical_cols df) (sel_group_col ui)) ;;
    numeric_col <- chosen (selectbox (numeric_cols df) (sel_numeric_col ui)) ;;
    Ok (Some (group_col, numeric_col))
  else Ok None.

Definition selected_groups (df : DataFrame) (ui : selection)
  : result (option (list string)) :=
  cols <- selected_columns df ui ;;
  match cols with
  | Some (group_col, _) => groups <- groups_of df group_col ;; Ok (Some groups)
  | None => Ok None
  end.

Definition extracted (df : DataFrame) (ui : selection)
  : result (option ((string * list R) * (string * list R))) :=
  cols <- selected_columns df ui ;;
  match cols with
  | Some (group_col, numeric_col) =>
      groups <- groups_of df group_col ;;
      if (2 <=? List.length groups)%nat then
        group1 <- chosen (selectbox groups (sel_group1 ui)) ;;
        group2 <- chosen (selectbox groups (sel_group2 ui)) ;;
        data1 <- sample df group_col numeric_col group1 ;;
        data2 <- sample df group_col numeric_col group2 ;;
        Ok (Some ((group1, data1), (group2, data2)))
      else Ok None
  | None => Ok None
  end.

(** Events that only ask for input. *)
Definition is_selector (e : event) : bool :=
  match e with
  | Subheader _ | SelectBox _ _ => true
  | _ => false
  end.

(** Events that tell the user something went wrong. *)
Definition is_report (e : event) : bool :=
  match e with
  | Warning _ | Error _ => true
  | _ => false
  end.

(** The significance flag a run shows, if it shows one. *)
Fixpoint verdict (events : list event) : option bool :=
  match events with
  | [] => None
  | Significant _ _ _ _ :: _ => Some true
  | NotSignificant _ _ _ _ :: _ => Some false
  | _ :: t => verdict t
  end.

(** The value of the metric with a given label, if it is shown. *)
Fixpoint metric (label : string) (events : list event) : option value :=
  match events with
  | [] => None
  | Metric l v :: t => if String.eqb l label then Some v else metric label t
  | _ :: t => metric label t
  end.

(** *** The aggregates in the spec's words *)

(** Sum and mean of a column "ignoring missing values". *)
Definition skipna_sum (cells : list (option R)) : R := Rsum (dropna cells).

Definition skipna_mean (cells : list (option R)) : option R :=
  match dropna cells with
  | [] => None
  | l => Some (Rsum l / INR (List.length l))
  end.

Definition spec_card (c : column) : event :=
  match col_data c with
  | Number cells => KpiCard (col_name c) (skipna_sum cells) (skipna_mean cells)
  | _ => KpiCard (col_name c) 0 None
  end.

(** The number of missing cells of a column. *)
Definition missing_cells (s : series) : nat :=
  List.length (filter (fun b : bool => b) (isnull s)).

(** "the arithmetic mean, over all columns, of (missing cell count / row
    count)" *)
Definition spec_missing_ratio (df : DataFrame) : R :=
  Rsum (map (fun c => INR (missing_cells (col_data c)) / INR (shape0 df)) df)
  / INR (List.length df).

(** The survival function of Student's t with one degree of freedom (the
    Cauchy distribution), used to run the model on concrete samples. *)
Definition cauchy_sf (df t : R) : R := 1 / 2 - atan t / PI.

End Dashboard.

(** ** The statistics in double precision

    [scipy] and [pandas] compute on IEEE 754 binary64 numbers.  [Stats]
    holds the formulas of the two library calls in exact arithmetic;
    [Binary64] holds the same computations with every operation rounded,
    on the binary64 numbers of the kernel.  A missing cell is a NaN and an
    integer is converted where the library converts it. *)

Module Binary64.
Import PrimFloat.
Local Open Scope float_scope.

Definition of_nat (n : nat) : float := of_uint63 (Uint63.of_Z (Z.of_nat n)).

Definition of_Z (z : Z) : float :=
  match z with
  | Zneg p => - of_nat (Pos.to_nat p)
  | _ => of_nat (Z.to_nat z)
  end.

(** The terms added up from left to right. *)
Definition sum_in_order (l : list float) : float := fold_left add l 0.

(** The literal [0.05] of the script: the double nearest to 5/100. *)
Definition alpha : float := 5 / 100.

Section Welch.

(** [np.sum]: the terms added up in double precision.  The order in which
    the library adds them depends on their number and on its version (it
    adds pairwise from eight terms on), so the sum is a parameter of the
    test. *)
Variable sum : list float -> float.

(** [sf df t]: the survival function of Student's t distribution, a special
    function of the library, applied to a finite [t]. *)
Variable sf : float -> float -> float.

Definition mean (l : list float) : float := sum l / of_nat (List.length l).

(** The unbiased sample variance ([ddof=1]) around the computed mean. *)
Definition var (l : list float) : float :=
  let m := mean l in
  sum (map (fun x => (x - m) * (x - m)) l) / of_nat (List.length l - 1).

(** [_unequal_var_ttest_denom]: the degrees of freedom, a NaN replaced by
    1, and the denominator of the statistic. *)
Definition welch_df (a b : list float) : float :=
  let vn1 := var a / of_nat (List.length a) in
  let vn2 := var b / of_nat (List.length b) in
  let df := (vn1 + vn2) * (vn1 + vn2)
            / (vn1 * vn1 / of_nat (List.length a - 1)
               + vn2 * vn2 / of_nat (List.length b - 1)) in
  if is_nan df then 1 else df.

Definition welch_denom (a b : list float) : float :=
  sqrt (var a / of_nat (List.length a) + var b / of_nat (List.length b)).

(** [stats.ttest_ind(a, b, equal_var=False)]: the statistic and the
    two-sided p-value, which is NaN for a NaN statistic and 0 for an
    infinite one. *)
Definition ttest_ind (a b : list float) : float * float :=
  let t := (mean a - mean b) / welch_denom a b in
  let p := if is_nan t then nan
           else if is_infinity t then 0
           else 2 * sf (welch_df a b) (abs t) in
  (t, p).

(** What the t-test block shows once the two samples are extracted: the
    three metrics, the verdict ([st.success] when [significant] holds,
    [st.warning] otherwise) and the two means, or the error message. *)
Inductive outcome :=
| Tested (t_stat : float) (dof : Z) (p_value : float) (significant : bool)
         (mean1 mean2 : float)
| NotEnough.

Definition ttest_block (data1 data2 : list float) : outcome :=
  if ((1 <? List.length data1) && (1 <? List.length data2))%nat then
    let '(t_stat, p_value) := ttest_ind data1 data2 in
    Tested t_stat
           (Z.of_nat (List.length data1) + Z.of_nat (List.length data2) - 2)
           p_value
           (if p_value <? alpha then true else false)
           (mean data1) (mean data2)
  else NotEnough.

End Welch.

(** *** [DataFrame.corr] *)

(** The rows where both cells are finite. *)
Definition complete_pairs (xs ys : list float) : list (float * float) :=
  filter (fun v => is_finite (fst v) && is_finite (snd v)) (combine xs ys).

(** The running moments of [nancorr] (Welford's method). *)
Record moments := Moments {
  nobs : nat;
  meanx : float;
  meany : float;
  ssqdmx : float;
  ssqdmy : float;
  covxy : float
}.

Definition welford (a : moments) (v : float * float) : moments :=
  let n := S (nobs a) in
  let dx := fst v - meanx a in
  let dy := snd v - meany a in
  let mx := meanx a + 1 / of_nat n * dx in
  let my := meany a + 1 / of_nat n * dy in
  Moments n mx my
          (ssqdmx a + (fst v - mx) * dx)
          (ssqdmy a + (snd v - my) * dy)
          (covxy a + (fst v - mx) * dy).

(** The coefficient is cut to [-1, 1] by the library from pandas 3 on;
    [clip] tells whether it is. *)
Definition clipped (clip : bool) (v : float) : float :=
  if clip then if 1 <? v then 1 else if v <? -1 then -1 else v else v.

(** Pearson's coefficient of two columns, as [nancorr] computes it. *)
Definition nancorr (clip : bool) (xs ys : list float) : float :=
  let a := fold_left welford (complete_pairs xs ys) (Moments 0 0 0 0 0 0) in
  if (nobs a <? 1)%nat then nan
  else
    let divisor := sqrt (ssqdmx a * ssqdmy a) in
    if divisor =? 0 then nan else clipped clip (covxy a / divisor).

Definition count_lt (l : list float) (x : float) : nat :=
  List.length (filter (fun y => y <? x) l).

Definition count_eq (l : list float) (x : float) : nat :=
  List.length (filter (fun y => y =? x) l).

(** The rank of [x] in [l], ties sharing the average of their ranks. *)
Definition rank (l : list float) (x : float) : float :=
  of_nat (count_lt l x) + (of_nat (count_eq l x) + 1) / 2.

Definition ranks (l : list float) : list float := map (rank l) l.

(** Spearman's coefficient, as [nancorr_spearman] computes it from the
    ranks of the pairwise complete values. *)
Definition nancorr_spearman (xs ys : list float) : float :=
  let ps := complete_pairs xs ys in
  if (List.length ps <? 1)%nat then nan
  else
    let mean := of_nat (List.length ps + 1) / 2 in
    let step (s : float * float * float) (r : float * float) :=
      let vx := fst r - mean in
      let vy := snd r - mean in
      (fst (fst s) + vx * vy, snd (fst s) + vx * vx, snd s + vy * vy) in
    let s := fold_left step
                       (combine (ranks (map fst ps)) (ranks (map snd ps)))
                       (0, 0, 0) in
    let divisor := sqrt (snd (fst s) * snd s) in
    if divisor =? 0 then nan else fst (fst s) / divisor.

(** The number of unordered pairs of observations that satisfy [f]. *)
Fixpoint pair_count (f : float * float -> float * float -> bool)
         (ps : list (float * float)) : nat :=
  match ps with
  | [] => 0%nat
  | p :: t => (List.length (filter (f p) t) + pair_count f t)%nat
  end.

Definition concordant (p q : float * float) : bool :=
  ((fst p <? fst q) && (snd p <? snd q))
  || ((fst q <? fst p) && (snd q <? snd p)).

Definition discordant (p q : float * float) : bool :=
  ((fst p <? fst q) && (snd q <? snd p))
  || ((fst q <? fst p) && (snd p <? snd q)).

Definition x_untied (p q : float * float) : bool := negb (fst p =? fst q).

Definition y_untied (p q : float * float) : bool := negb (snd p =? snd q).

(** Kendall's tau-b, as [scipy.stats.kendalltau] computes it: NaN when one
    of the two samples is all ties, the quotient cut to [-1, 1]. *)
Definition kendalltau (ps : list (float * float)) : float :=
  let con := pair_count concordant ps in
  let dis := pair_count discordant ps in
  let nx := pair_count x_untied ps in
  let ny := pair_count y_untied ps in
  if ((nx =? 0) || (ny =? 0))%nat then nan
  else
    let tau := of_Z (Z.of_nat con - Z.of_nat dis)
               / sqrt (of_nat nx) / sqrt (of_nat ny) in
    let m := if -1 <? tau then tau else -1 in
    if 1 <? m then 1 else m.

(** One coefficient of [DataFrame.corr(method)].  Each pair of columns is
    computed once and written to the two places of the matrix: [nancorr]
    and [nancorr_spearman] take the column of the larger position first,
    the loop for kendall the column of the smaller one, and it writes 1.0
    on the diagonal of a column that has a value. *)
Definition coefficient (clip : bool) (m : Stats.method)
           (cols : list (list float)) (i j : nat) : float :=
  let lo := nth (Nat.min i j) cols [] in
  let hi := nth (Nat.max i j) cols [] in
  match m with
  | Stats.pearson => nancorr clip hi lo
  | Stats.spearman => nancorr_spearman hi lo
  | Stats.kendall =>
      if (List.length (complete_pairs lo hi) <? 1)%nat then nan
      else if (Nat.min i j =? Nat.max i j)%nat then 1
      else kendalltau (complete_pairs lo hi)
  end.

Definition matrix := list (list float).

(** [frame.corr(method=m)] over the numeric columns. *)
Definition corr (clip : bool) (m : Stats.method) (cols : list (list float))
  : matrix :=
  map (fun i => map (coefficient clip m cols i) (seq 0 (List.length cols)))
      (seq 0 (List.length cols)).

(** [M[i][j]]; [None] is an index out of range. *)
Definition entry (M : matrix) (i j : nat) : option float :=
  match nth_error M i with
  | Some row => nth_error row j
  | None => None
  end.

(** Student's t distribution with two degrees of freedom has the survival
    function [1/2 - t / (2 sqrt (2 + t^2))]; it serves to run the test on
    concrete samples. *)
Definition student2_sf (df t : float) : float :=
  0.5 - t / (2 * sqrt (2 + t * t)).

End Binary64.

Import Pandas Stats Dashboard.

(** [subseq s l]: [s] is [l] with some elements left out, order kept. *)
Inductive subseq {A} : list A -> list A -> Prop :=
| subseq_nil : subseq [] []
| subseq_skip x s l : subseq s l -> subseq s (x :: l)
| subseq_keep x s l : subseq s l -> subseq (x :: s) (x :: l).


(** ** Sample frames *)

(** A frame as [read_csv] gives it for a file whose second column is
    empty: a text column and a float column of NaN only. *)
Definition frame_with_empty_column : DataFrame :=
  [ Column "city" (Object [Some "Pune"; Some "Agra"]);
    Column "rating" (Number [None; None]) ].

(** Four columns and five rows; the columns miss 2, 1, 2 and 0 cells. *)
Definition frame_4x5 : DataFrame :=
  [ Column "region" (Object [Some "N"; None; Some "S"; None; Some "E"]);
    Column "units" (Number [Some 1; Some 2; None; Some 4; Some 5]);
    Column "price" (Number [None; Some 2; Some 3; None; Some 5]);
    Column "year" (Number [Some 1; Some 2; Some 3; Some 4; Some 5]) ].

(** The frame of a file that has a header line and no data line. *)
Definition frame_without_rows : DataFrame :=
  [ Column "region" (Object []); Column "units" (Object []) ].

(** One numeric column only. *)
Definition frame_one_numeric : DataFrame :=
  [ Column "region" (Object [Some "N"; Some "S"]);
    Column "units" (Number [Some 1; None]) ].

Definition first_choices : selection := Selection 0 0 0 0 0.

(** The same choices with other positions in the two group selectors. *)
Definition with_groups (ui : selection) (c1 c2 : nat) : selection :=
  Selection (sel_method ui) (sel_group_col ui) (sel_numeric_col ui) c1 c2.

(** Group [a] has three values and group [b] one. *)
Definition frame_small_group : DataFrame :=
  [ Column "region" (Object [Some "a"; Some "a"; Some "a"; Some "b"]);
    Column "units" (Number [Some 1; Some 2; Some 3; Some 4]) ].

(** First grouping column, first numeric column, first and second label. *)
Definition first_and_second : selection := Selection 0 0 0 0 1.

(** One label only, one cell of the grouping column missing. *)
Definition frame_one_group : DataFrame :=
  [ Column "region" (Object [Some "a"; Some "a"; None; Some "a"]);
    Column "units" (Number [Some 1; Some 2; Some 3; Some 4]) ].

(** Two groups of different sizes and variances. *)
Definition frame_unequal : DataFrame :=
  [ Column "region" (Object [Some "a"; Some "a"; Some "b"; Some "b"; Some "b"]);
    Column "units" (Number [Some 0; Some 2; Some 0; Some 4; Some 8]) ].

(** Group [a] holds the same value twice. *)
Definition frame_constant_group : DataFrame :=
  [ Column "region" (Object [Some "a"; Some "a"; Some "b"]);
    Column "units" (Number [Some 5; Some 5; Some 1]) ].

(** An observation with its two coordinates exchanged. *)
Definition swap (p : R * R) : R * R := (snd p, fst p).

(** ** Rows of a grouping column beside a numeric column *)

(** A row is in group [g] when its label is [g] and its value is present;
    it is complete when both cells are present. *)
Definition in_group (g : string) (row : option string * option R) : bool :=
  match row with
  | (Some l, Some _) => String.eqb l g
  | _ => false
  end.

Definition complete_row (row : option string * option R) : bool :=
  match row with
  | (Some _, Some _) => true
  | _ => false
  end.

(** Three labels, a missing label and a missing value. *)
Definition frame_three_groups : DataFrame :=
  [ Column "region"
      (Object [Some "a"; Some "b"; None; Some "a"; Some "c"; Some "b"]);
    Column "units"
      (Number [Some 1; Some 2; Some 3; None; Some 5; Some 6]) ].

(** The opposite of a float. *)
Definition fp_neg (t : fp) : fp :=
  match t with
  | Fin r => Fin (- r)
  | PInf => NInf
  | NInf => PInf
  | NaN => NaN
  end.

(** The number of missing cells of a frame. *)
Definition total_missing (df : DataFrame) : nat :=
  list_sum (map (fun c => missing_cells (col_data c)) df).

(** The cells of the numeric columns, in the order of the frame. *)
Definition numeric_data (df : DataFrame) : list (list (option R)) :=
  map (fun c => match col_data c with Number cells => cells | _ => [] end)
      (select_dtypes is_number df).

(** A map applied to the present cells of a column. *)
Definition on_cells (f : R -> R) (cells : list (option R)) : list (option R) :=
  map (option_map f) cells.

(** A map applied to the second component of a pair. *)
Definition on_snd (f : R -> R) (p : R * R) : R * R := (fst p, f (snd p)).

Definition increasing (f : R -> R) : Prop := forall a b, a < b -> f a < f b.

(** [s.head()]: the first five cells, the dtype kept. *)
Definition head_series (s : series) : series :=
  match s with
  | Number cells => Number (firstn 5 cells)
  | Object cells => Object (firstn 5 cells)
  | Category cells => Category (firstn 5 cells)
  | Boolean cells => Boolean (firstn 5 cells)
  | Datetime cells => Datetime (firstn 5 cells)
  end.

(** [df.head()], the frame of the data preview. *)
Definition head (df : DataFrame) : DataFrame :=
  map (fun c => Column (col_name c) (head_series (col_data c))) df.

(** Seven rows, the first five without a missing cell. *)
Definition frame_seven_rows : DataFrame :=
  [ Column "region"
      (Object [Some "N"; Some "S"; Some "N"; Some "S"; Some "E"; None; None]);
    Column "units"
      (Number [Some 1; Some 2; Some 3; Some 4; Some 5; None; Some 7]) ].

(** *** The KPI cards in the spec's words

    "The first top_n numeric columns in their original column order", with
    their cells, and the "sum and mean ignoring missing values", each by a
    recursion of its own on the frame or on the cells. *)

Fixpoint first_numeric (top_n : nat) (df : DataFrame)
  : list (string * list (option R)) :=
  match df with
  | [] => []
  | c :: rest =>
      match top_n with
      | O => []
      | S k =>
          match col_data c with
          | Number cells => (col_name c, cells) :: first_numeric k rest
          | _ => first_numeric top_n rest
          end
      end
  end.

Fixpoint number_of_numeric (df : DataFrame) : nat :=
  match df with
  | [] => 0%nat
  | c :: rest =>
      match col_data c with
      | Number _ => S (number_of_numeric rest)
      | _ => number_of_numeric rest
      end
  end.

Fixpoint sum_present (cells : list (option R)) : R :=
  match cells with
  | [] => 0
  | Some v :: rest => v + sum_present rest
  | None :: rest => sum_present rest
  end.

Fixpoint number_present (cells : list (option R)) : nat :=
  match cells with
  | [] => 0%nat
  | Some _ :: rest => S (number_present rest)
  | None :: rest => number_present rest
  end.

Definition mean_present (cells : list (option R)) : option R :=
  match number_present cells with
  | O => None
  | n => Some (sum_present cells / INR n)
  end.

Definition card_of (c : string * list (option R)) : event :=
  KpiCard (fst c) (sum_present (snd c)) (mean_present (snd c)).

(** Five numeric columns around a text column, with missing cells. *)
Definition frame_five_numeric : DataFrame :=
  [ Column "a" (Number [Some 1; None; Some 2]);
    Column "region" (Object [Some "N"; Some "S"; None]);
    Column "b" (Number [Some 4; Some 5; Some 6]);
    Column "c" (Number [None; None; Some 7]);
    Column "d" (Number [Some 1; Some 1; Some 1]);
    Column "e" (Number [None; None; None]) ].

(** [g] stands before [h] in [l]. *)
Definition before {A} (g h : A) (l : list A) : Prop :=
  exists l1 l2, l = l1 ++ g :: l2 /\ In h l2.

(** The first occurrence of [h] in [l] comes after an occurrence of [g]. *)
Definition first_seen_after {A} (g h : A) (l : list A) : Prop :=
  exists p q, l = p ++ h :: q /\ ~ In h p /\ In g p.

(** A t statistic that is a zero or a NaN. *)
Definition zero_or_nan (t : PrimFloat.float) : Prop :=
  t = PrimFloat.zero \/ t = PrimFloat.neg_zero \/ t = PrimFloat.nan.

(** * Properties *)

(** ** Lists, lookups and the error monad *)

Lemma subseq_filter {A} (f : A -> bool) (l : list A) : subseq (filter f l) l.
Proof.
  induction l as [|x l IH]; simpl.
  - constructor.
  - destruct (f x); now constructor.
Qed.

Lemma subseq_map {A B} (g : A -> B) (s l : list A) :
  subseq s l -> subseq (map g s) (map g l).
Proof. induction 1; simpl; now constructor. Qed.

Lemma subseq_In {A} (s l : list A) (x : A) : subseq s l -> In x s -> In x l.
Proof.
  induction 1; simpl; intros Hx; auto.
  destruct Hx; auto.
Qed.

Lemma subseq_NoDup {A} (s l : list A) : subseq s l -> NoDup l -> NoDup s.
Proof.
  induction 1; intros Hl; auto.
  - inversion Hl; auto.
  - inversion Hl; subst. constructor; auto.
    intros Hx. eauto using subseq_In.
Qed.

Lemma mapM_ok {A B} (f : A -> result B) (g : A -> B) (l : list A) :
  (forall a, In a l -> f a = Ok (g a)) -> mapM f l = Ok (map g l).
Proof.
  induction l as [|a l IH]; simpl; intros H; auto.
  rewrite (H a) by auto. simpl. rewrite IH by auto. reflexivity.
Qed.

Lemma getitem_In (df : DataFrame) (c : column) :
  NoDup (columns df) -> In c df -> getitem df (col_name c) = Ok (col_data c).
Proof.
  unfold getitem, columns.
  induction df as [|d df IH]; simpl; intros Hnd Hin; [contradiction|].
  inversion Hnd as [|? ? Hd Hnd']; subst.
  destruct Hin as [->|Hin].
  - now rewrite String.eqb_refl.
  - destruct (String.eqb_spec (col_name d) (col_name c)) as [E|_]; auto.
    exfalso. apply Hd. rewrite E. now apply in_map.
Qed.

Lemma selectbox_In {A} (options : list A) (i : nat) (x : A) :
  selectbox options i = Some x -> In x options.
Proof.
  unfold selectbox. destruct (nth_error options i) eqn:E.
  - intros [= <-]. eauto using nth_error_In.
  - destruct options; simpl; [discriminate|]. intros [= <-]. auto.
Qed.

Lemma selectbox_some {A} (options : list A) (i : nat) :
  options <> [] -> exists x, selectbox options i = Some x.
Proof.
  unfold selectbox. intros H. destruct (nth_error options i); eauto.
  destruct options; [contradiction|]. simpl. eauto.
Qed.

(** ** Sums and means that skip missing cells *)

Lemma nansum_dropna (cells : list (option R)) :
  nansum cells = skipna_sum cells.
Proof.
  unfold nansum, skipna_sum.
  induction cells as [|[v|] t IH]; simpl; try rewrite IH; lra.
Qed.

Lemma count_dropna {A} (cells : list (option A)) :
  count cells = List.length (dropna cells).
Proof.
  unfold count. induction cells as [|[v|] t IH]; simpl; auto.
Qed.

Lemma nanmean_dropna (cells : list (option R)) :
  nanmean cells = skipna_mean cells.
Proof.
  unfold nanmean, skipna_mean. rewrite count_dropna, nansum_dropna.
  unfold skipna_sum. destruct (dropna cells); reflexivity.
Qed.

Lemma dropna_map_Some {A} (l : list A) : dropna (map Some l) = l.
Proof. induction l; simpl; congruence. Qed.

(** ** Column classification *)

Lemma In_columns_select (f : series -> bool) (df : DataFrame) (c : column) :
  NoDup (columns df) -> In c df ->
  (In (col_name c) (columns (select_dtypes f df)) <-> f (col_data c) = true).
Proof.
  intros Hnd Hin. unfold columns, select_dtypes. split.
  - intros H. apply in_map_iff in H as (d & Hname & Hd).
    apply filter_In in Hd as [Hd Hf].
    assert (col_data d = col_data c) as <-; auto.
    pose proof (getitem_In df d Hnd Hd) as E1.
    pose proof (getitem_In df c Hnd Hin) as E2.
    rewrite Hname in E1. congruence.
  - intros Hf. apply in_map. apply filter_In. auto.
Qed.

Lemma dtypes_exclusive (s : series) :
  is_number s = true -> is_object_or_category s = true -> False.
Proof. destruct s; simpl; discriminate. Qed.

Lemma NoDup_app_disjoint {A} (l1 l2 : list A) :
  NoDup l1 -> NoDup l2 -> (forall x, In x l1 -> In x l2 -> False) ->
  NoDup (l1 ++ l2).
Proof.
  induction l1 as [|a l1 IH]; simpl; intros H1 H2 Hd; auto.
  inversion H1; subst. constructor.
  - rewrite in_app_iff. intros [H|H]; eauto.
  - apply IH; eauto.
Qed.

(** C8, as the code has it.  The classifier looks at the dtype of a column
    and at nothing else: in a frame with distinct column names a column is
    listed as numeric exactly when its dtype is a number and as
    categorical exactly when its dtype is object or category, whatever its
    cells hold; both lists keep the frame's column order and together they
    hold no name twice. *)
Theorem classification_by_dtype (df : DataFrame) :
  NoDup (columns df) ->
  (forall c, In c df ->
     (In (col_name c) (numeric_cols df) <-> is_number (col_data c) = true)
     /\ (In (col_name c) (categorical_cols df)
         <-> is_object_or_category (col_data c) = true))
  /\ subseq (numeric_cols df) (columns df)
  /\ subseq (categorical_cols df) (columns df)
  /\ NoDup (categorical_cols df ++ numeric_cols df).
Proof.
  intros Hnd.
  assert (Sn : subseq (numeric_cols df) (columns df))
    by apply subseq_map, subseq_filter.
  assert (Sc : subseq (categorical_cols df) (columns df))
    by apply subseq_map, subseq_filter.
  repeat split; auto; try (now apply In_columns_select).
  apply NoDup_app_disjoint; eauto using subseq_NoDup.
  intros x Hc Hn.
  apply in_map_iff in Hc as (c & <- & Hc). apply filter_In in Hc as [Hc Hcat].
  apply (In_columns_select is_number df c Hnd Hc) in Hn.
  eauto using dtypes_exclusive.
Qed.

Lemma classification_by_dtype_witness :
  NoDup (columns frame_with_empty_column)
  /\ subseq (numeric_cols frame_with_empty_column)
            (columns frame_with_empty_column).
Proof.
  assert (H : NoDup (columns frame_with_empty_column)).
  { simpl. repeat constructor; simpl; intuition discriminate. }
  split; [exact H|].
  exact (proj1 (proj2 (classification_by_dtype frame_with_empty_column H))).
Defined.

(** C8 as stated fails: a column without a single non-missing value is
    classified by its dtype, here as numeric, not as categorical. *)
Lemma empty_column_is_numeric :
  dropna [@None R; None] = []
  /\ In (Column "rating" (Number [None; None])) frame_with_empty_column
  /\ numeric_cols frame_with_empty_column = ["rating"]
  /\ categorical_cols frame_with_empty_column = ["city"].
Proof. simpl. intuition. Qed.

(** ** The correlation guard *)

Lemma selectbox_methods (i : nat) :
  exists m, selectbox methods i = Some m.
Proof. apply selectbox_some. discriminate. Qed.

(** C3.  With fewer than two numeric columns the guard fails: no matrix is
    computed ([correlate] is [None] for every method), nothing is raised,
    and the section shows its header and its method selector only. *)
Theorem correlate_absent_below_two (df : DataFrame) (m : method)
        (ui : selection) :
  (List.length (numeric_cols df) < 2)%nat ->
  correlate df m = Ok None
  /\ correlation_section df ui
     = Ok [ Subheader "Correlation Analysis";
            SelectBox "Select Correlation Method" method_names ].
Proof.
  intros H.
  assert (E : forall m', correlate df m' = Ok None).
  { intros m'. unfold correlate.
    destruct (Nat.leb_spec 2 (List.length (numeric_cols df))); [lia|easy]. }
  split; [apply E|].
  unfold correlation_section.
  destruct (selectbox_methods (sel_method ui)) as [m' ->]. simpl.
  now rewrite E.
Qed.

Lemma correlate_absent_below_two_witness :
  correlate frame_one_numeric kendall = Ok None
  /\ correlation_section frame_one_numeric first_choices
     = Ok [ Subheader "Correlation Analysis";
            SelectBox "Select Correlation Method" method_names ].
Proof.
  apply (correlate_absent_below_two frame_one_numeric kendall first_choices).
  simpl. lia.
Defined.

(** The matrix exists only behind the guard. *)
Lemma correlate_some_inv (df : DataFrame) (m : method) (M : matrix) :
  correlate df m = Ok (Some M) ->
  (2 <= List.length (numeric_cols df))%nat
  /\ exists frame,
       numeric_frame df (numeric_cols df) = Ok frame /\ M = corr m frame.
Proof.
  unfold correlate.
  destruct (Nat.leb_spec 2 (List.length (numeric_cols df))); [|discriminate].
  destruct (numeric_frame df (numeric_cols df)) as [frame|e]; simpl;
    [|discriminate].
  intros [= <-]. eauto.
Qed.

(** ** KPI cards *)

Lemma mapM_map_ok {A B C} (f : B -> result C) (h : A -> B) (g : A -> C)
      (l : list A) :
  (forall a, In a l -> f (h a) = Ok (g a)) -> mapM f (map h l) = Ok (map g l).
Proof.
  induction l as [|a l IH]; simpl; intros H; auto.
  rewrite (H a) by auto. simpl. rewrite IH by auto. reflexivity.
Qed.

Lemma In_firstn {A} (n : nat) (l : list A) (x : A) :
  In x (firstn n l) -> In x l.
Proof.
  revert l; induction n; intros [|a l]; simpl; intuition.
Qed.

Lemma kpi_card_spec (df : DataFrame) (c : column) :
  NoDup (columns df) -> In c df -> is_number (col_data c) = true ->
  kpi_card df (col_name c) = Ok (spec_card c).
Proof.
  intros Hnd Hin Hnum. unfold kpi_card, spec_card.
  rewrite getitem_In by assumption.
  destruct (col_data c); try discriminate. simpl.
  now rewrite nansum_dropna, nanmean_dropna.
Qed.

Lemma nansum_sum_present (cells : list (option R)) :
  nansum cells = sum_present cells.
Proof.
  unfold nansum. induction cells as [|[v|] t IH]; simpl; rewrite ?IH; lra.
Qed.

Lemma count_number_present (cells : list (option R)) :
  count cells = number_present cells.
Proof.
  unfold count. induction cells as [|[v|] t IH]; simpl; auto.
Qed.

Lemma nanmean_mean_present (cells : list (option R)) :
  nanmean cells = mean_present cells.
Proof.
  unfold nanmean, mean_present.
  now rewrite count_number_present, nansum_sum_present.
Qed.

Lemma kpi_card_card_of (df : DataFrame) (c : column)
      (cells : list (option R)) :
  NoDup (columns df) -> In c df -> col_data c = Number cells ->
  kpi_card df (col_name c) = Ok (card_of (col_name c, cells)).
Proof.
  intros Hnd Hin Hc. unfold kpi_card, card_of.
  rewrite getitem_In by assumption. rewrite Hc. simpl.
  now rewrite nansum_sum_present, nanmean_mean_present.
Qed.

Lemma first_numeric_0 (df : DataFrame) : first_numeric 0 df = [].
Proof. now destruct df. Qed.

(** The loop over [numeric_cols[:3]], on any part of the frame. *)
Lemma kpi_loop_first_numeric (df part : DataFrame) (n : nat) :
  NoDup (columns df) -> (forall c, In c part -> In c df) ->
  mapM (kpi_card df) (firstn n (columns (select_dtypes is_number part)))
  = Ok (map card_of (first_numeric n part)).
Proof.
  intros Hnd. revert n. induction part as [|c part IH]; intros n Hin.
  - destruct n; reflexivity.
  - destruct n as [|n]; [reflexivity|].
    unfold select_dtypes, columns in *. cbn [filter first_numeric].
    destruct (col_data c) as [cells|l|l|l|l] eqn:Ec; cbn [is_number];
      try (apply IH; intros; apply Hin; now right).
    cbn [map firstn mapM].
    rewrite (kpi_card_card_of df c cells Hnd (Hin c (or_introl eq_refl)) Ec).
    cbn [bind]. rewrite IH by (intros; apply Hin; now right). reflexivity.
Qed.

Lemma length_first_numeric (n : nat) (df : DataFrame) :
  List.length (first_numeric n df) = Nat.min n (number_of_numeric df).
Proof.
  revert n. induction df as [|c df IH]; intros n.
  - simpl. now rewrite Nat.min_0_r.
  - destruct n as [|n]; [reflexivity|].
    cbn [first_numeric number_of_numeric].
    destruct (col_data c); cbn [List.length]; rewrite IH; lia.
Qed.

(** C7.  In a frame with distinct column names the KPI loop makes one card
    for each of the first three numeric columns, in the frame's column
    order, or for each numeric column when there are fewer than three; a
    card carries the column's name, the sum of its present cells and their
    mean (NaN when none is present); the section raises nothing. *)
Theorem kpi_cards_first_three (df : DataFrame) :
  NoDup (columns df) ->
  kpi_cards df = Ok (map card_of (first_numeric 3 df))
  /\ List.length (first_numeric 3 df) = Nat.min 3 (number_of_numeric df)
  /\ exists events, kpi_section df = Ok events.
Proof.
  intros Hnd.
  assert (E : kpi_cards df = Ok (map card_of (first_numeric 3 df))).
  { unfold kpi_cards, top_numeric, numeric_cols.
    now apply kpi_loop_first_numeric. }
  split; [exact E|]. split; [apply length_first_numeric|].
  unfold kpi_section. destruct (_ =? 0)%nat; [eauto|].
  rewrite E. simpl. eauto.
Qed.

(** Five numeric columns give the cards of the first three, one numeric
    column gives one card. *)
Lemma kpi_cards_first_three_witness :
  kpi_cards frame_five_numeric
  = Ok [ KpiCard "a" 3 (Some (3 / 2));
         KpiCard "b" 15 (Some 5);
         KpiCard "c" 7 (Some 7) ]
  /\ kpi_cards frame_one_numeric = Ok [ KpiCard "units" 1 (Some 1) ].
Proof.
  split.
  - destruct (kpi_cards_first_three frame_five_numeric) as [E _].
    { simpl. repeat constructor; simpl; intuition discriminate. }
    rewrite E. cbn [first_numeric frame_five_numeric col_data col_name map].
    unfold card_of, mean_present. cbn [fst snd sum_present number_present].
    repeat f_equal; simpl; lra.
  - destruct (kpi_cards_first_three frame_one_numeric) as [E _].
    { simpl. repeat constructor; simpl; intuition discriminate. }
    rewrite E. cbn [first_numeric frame_one_numeric col_data col_name map].
    unfold card_of, mean_present. cbn [fst snd sum_present number_present].
    repeat f_equal; simpl; lra.
Defined.

(** ** The share of missing cells *)

Lemma length_isnull (s : series) : List.length (isnull s) = len s.
Proof. destruct s; simpl; apply length_map. Qed.

Lemma count_occ_true (l : list bool) :
  count_occ bool_dec l true = List.length (filter (fun b : bool => b) l).
Proof.
  induction l as [|[|] l IH]; simpl; auto.
Qed.

Lemma bool_mean_rows (l : list bool) :
  l <> [] ->
  bool_mean l
  = Some (INR (List.length (filter (fun b : bool => b) l))
          / INR (List.length l)).
Proof.
  destruct l; [contradiction|]. intros _. unfold bool_mean.
  now rewrite count_occ_true.
Qed.

Lemma nanmean_all_present {A} (g : A -> R) (l : list A) :
  l <> [] ->
  nanmean (map (fun a => Some (g a)) l)
  = Some (Rsum (map g l) / INR (List.length l)).
Proof.
  intros Hl. rewrite nanmean_dropna. unfold skipna_mean.
  rewrite <- (map_map g Some), dropna_map_Some.
  destruct l as [|a l]; [contradiction|].
  change (map g (a :: l)) with (g a :: map g l). cbv iota.
  do 3 f_equal. simpl. now rewrite length_map.
Qed.

Lemma nanmean_all_missing {A} (l : list A) :
  nanmean (map (fun _ => None) l) = None.
Proof.
  rewrite nanmean_dropna. unfold skipna_mean.
  replace (dropna (map (fun _ : A => None) l)) with (@nil R); auto.
  induction l; simpl; auto.
Qed.

(** ** The t-test section, guard by guard *)

Section TTestRuns.

Variable sf : R -> R -> R.

Lemma ttest_block_rejected (g1 g2 : string) (d1 d2 : list R) :
  (List.length d1 <= 1 \/ List.length d2 <= 1)%nat ->
  ttest_block sf g1 g2 d1 d2 = [Error not_enough].
Proof.
  intros H. unfold ttest_block.
  destruct (Nat.ltb_spec 1 (List.length d1));
    destruct (Nat.ltb_spec 1 (List.length d2)); simpl; auto; lia.
Qed.

Lemma ttest_block_tested (g1 g2 : string) (d1 d2 : list R) :
  (1 < List.length d1)%nat -> (1 < List.length d2)%nat ->
  ttest_block sf g1 g2 d1 d2
  = [ Metric "t-statistic" (VStat (fst (ttest_ind sf d1 d2)));
      Metric "Degrees of Freedom"
             (VInt (Z.of_nat (List.length d1) + Z.of_nat (List.length d2) - 2));
      Metric "p-value" (VFloat (snd (ttest_ind sf d1 d2)));
      (if nan_ltb (snd (ttest_ind sf d1 d2)) 0.05
       then Significant g1 (data_mean d1) g2 (data_mean d2)
       else NotSignificant g1 (data_mean d1) g2 (data_mean d2));
      BarPlot [g1; g2] [data_mean d1; data_mean d2] ].
Proof.
  intros H1 H2. unfold ttest_block.
  apply Nat.ltb_lt in H1, H2. rewrite H1, H2. reflexivity.
Qed.

(** A run that extracts two samples shows its selectors and then the body
    of the test on these samples. *)
Lemma ttest_section_extracted (df : DataFrame) (ui : selection)
      (g1 g2 : string) (d1 d2 : list R) :
  extracted df ui = Ok (Some ((g1, d1), (g2, d2))) ->
  exists prefix,
    forallb is_selector prefix = true
    /\ ttest_section sf df ui = Ok (prefix ++ ttest_block sf g1 g2 d1 d2).
Proof.
  unfold extracted, selected_columns, ttest_section.
  destruct (negb _ && negb _); cbn [bind]; [|discriminate].
  destruct (chosen (selectbox (categorical_cols df) _)) as [gc|];
    cbn [bind]; [|discriminate].
  destruct (chosen (selectbox (numeric_cols df) _)) as [nc|];
    cbn [bind]; [|discriminate].
  destruct (groups_of df gc) as [groups|]; cbn [bind]; [|discriminate].
  destruct (2 <=? List.length groups)%nat; [|discriminate].
  destruct (chosen (selectbox groups (sel_group1 ui))) as [l1|];
    cbn [bind]; [|discriminate].
  destruct (chosen (selectbox groups (sel_group2 ui))) as [l2|];
    cbn [bind]; [|discriminate].
  destruct (sample df gc nc l1) as [s1|]; cbn [bind]; [|discriminate].
  destruct (sample df gc nc l2) as [s2|]; cbn [bind]; [|discriminate].
  intros [= <- <- <- <-].
  eexists (_ :: _ :: _ :: _ :: _ :: nil). split; [|reflexivity]. reflexivity.
Qed.

(** The two samples of one label are one sample. *)
Lemma extracted_same_label (df : DataFrame) (ui : selection)
      (g1 g2 : string) (d1 d2 : list R) :
  extracted df ui = Ok (Some ((g1, d1), (g2, d2))) -> g1 = g2 -> d1 = d2.
Proof.
  unfold extracted.
  destruct (selected_columns df ui) as [[[gc nc]|]|]; cbn [bind]; try discriminate.
  destruct (groups_of df gc) as [groups|]; cbn [bind]; [|discriminate].
  destruct (2 <=? List.length groups)%nat; [|discriminate].
  destruct (chosen (selectbox groups (sel_group1 ui))) as [l1|];
    cbn [bind]; [|discriminate].
  destruct (chosen (selectbox groups (sel_group2 ui))) as [l2|];
    cbn [bind]; [|discriminate].
  destruct (sample df gc nc l1) as [s1|] eqn:E1; cbn [bind]; [|discriminate].
  destruct (sample df gc nc l2) as [s2|] eqn:E2; cbn [bind]; [|discriminate].
  intros [= <- <- <- <-] ->. congruence.
Qed.

(** A run that finds fewer than two labels stops after the two column
    selectors. *)
Lemma ttest_section_few_groups (df : DataFrame) (ui : selection)
      (groups : list string) :
  selected_groups df ui = Ok (Some groups) ->
  (List.length groups < 2)%nat ->
  ttest_section sf df ui
  = Ok [ Subheader "Independent T-Test Analysis";
         SelectBox "Grouping Column" (categorical_cols df);
         SelectBox "Numeric Column for T-Test" (numeric_cols df) ]
  /\ extracted df ui = Ok None.
Proof.
  unfold selected_groups, extracted, selected_columns, ttest_section.
  destruct (negb _ && negb _); cbn [bind]; [|discriminate].
  destruct (chosen (selectbox (categorical_cols df) _)) as [gc|];
    cbn [bind]; [|discriminate].
  destruct (chosen (selectbox (numeric_cols df) _)) as [nc|];
    cbn [bind]; [|discriminate].
  destruct (groups_of df gc) as [gs|]; cbn [bind]; [|discriminate].
  intros [= ->] Hlen.
  destruct (Nat.leb_spec 2 (List.length groups)); [lia|]. auto.
Qed.

End TTestRuns.

(** C2.  When a run of the t-test section extracts two samples and one of
    them has at most one value, whatever the size of the other, the section
    shows its selectors and then the error message: no test is run, no
    metric or verdict is shown, and nothing is raised. *)
Theorem insufficient_sample_reported (sf : R -> R -> R) (df : DataFrame)
        (ui : selection) (g1 g2 : string) (d1 d2 : list R) :
  extracted df ui = Ok (Some ((g1, d1), (g2, d2))) ->
  (List.length d1 <= 1 \/ List.length d2 <= 1)%nat ->
  exists prefix,
    forallb is_selector prefix = true
    /\ ttest_section sf df ui = Ok (prefix ++ [Error not_enough]).
Proof.
  intros He Hlen.
  destruct (ttest_section_extracted sf df ui g1 g2 d1 d2 He) as (p & Hp & E).
  exists p. split; [exact Hp|].
  now rewrite E, ttest_block_rejected.
Qed.

Lemma insufficient_sample_reported_witness :
  exists prefix,
    forallb is_selector prefix = true
    /\ ttest_section cauchy_sf frame_small_group first_and_second
       = Ok (prefix ++ [Error not_enough]).
Proof.
  apply (insufficient_sample_reported cauchy_sf frame_small_group
           first_and_second "a" "b" [1; 2; 3] [4]).
  - reflexivity.
  - right. simpl. lia.
Defined.

(** C9, as the code has it.  When the chosen grouping column holds fewer
    than two distinct non-missing labels the section stops after its two
    column selectors, whatever is chosen in the group selectors: they are
    not shown, no sample is extracted, no test is run, and the user is told
    nothing (no warning, no error). *)
Theorem too_few_groups_is_silent (sf : R -> R -> R) (df : DataFrame)
        (ui : selection) (groups : list string) :
  selected_groups df ui = Ok (Some groups) ->
  (List.length groups < 2)%nat ->
  forall c1 c2 : nat,
    let shown :=
      [ Subheader "Independent T-Test Analysis";
        SelectBox "Grouping Column" (categorical_cols df);
        SelectBox "Numeric Column for T-Test" (numeric_cols df) ] in
    ttest_section sf df (with_groups ui c1 c2) = Ok shown
    /\ extracted df (with_groups ui c1 c2) = Ok None
    /\ existsb is_report shown = false.
Proof.
  intros Hg Hlen c1 c2 shown.
  destruct (ttest_section_few_groups sf df (with_groups ui c1 c2) groups)
    as [E1 E2]; auto.
Qed.

Lemma too_few_groups_is_silent_witness :
  ttest_section cauchy_sf frame_one_group (with_groups first_choices 0 1)
  = Ok [ Subheader "Independent T-Test Analysis";
         SelectBox "Grouping Column" (categorical_cols frame_one_group);
         SelectBox "Numeric Column for T-Test" (numeric_cols frame_one_group) ].
Proof.
  apply (too_few_groups_is_silent cauchy_sf frame_one_group first_choices
           ["a"]).
  - reflexivity.
  - simpl. lia.
Defined.

(** C9 as stated fails: with one label in the grouping column the run ends
    without any warning or error, while a sample that is too small does
    get its error message. *)
Lemma one_group_is_not_reported :
  selected_groups frame_one_group first_choices = Ok (Some ["a"])
  /\ exists shown,
       ttest_section cauchy_sf frame_one_group first_choices = Ok shown
       /\ existsb is_report shown = false.
Proof.
  split; [reflexivity|]. eexists. split; reflexivity.
Qed.

(** ** The degrees of freedom the section shows *)

Lemma metric_after_selectors (label : string) (prefix rest : list event) :
  forallb is_selector prefix = true ->
  metric label (prefix ++ rest) = metric label rest.
Proof.
  induction prefix as [|e p IH]; simpl; auto.
  destruct e; simpl; try discriminate; auto.
Qed.

Lemma verdict_after_selectors (prefix rest : list event) :
  forallb is_selector prefix = true ->
  verdict (prefix ++ rest) = verdict rest.
Proof.
  induction prefix as [|e p IH]; simpl; auto.
  destruct e; simpl; try discriminate; auto.
Qed.

(** Whatever the samples, the metric is the pooled count [n1 + n2 - 2]. *)
Lemma dof_metric_pooled (sf : R -> R -> R) (g1 g2 : string)
      (d1 d2 : list R) :
  (1 < List.length d1)%nat -> (1 < List.length d2)%nat ->
  metric "Degrees of Freedom" (ttest_block sf g1 g2 d1 d2)
  = Some (VInt (Z.of_nat (List.length d1) + Z.of_nat (List.length d2) - 2)).
Proof.
  intros H1 H2. now rewrite ttest_block_tested.
Qed.

Lemma welch_df_unequal : welch_df [0; 2] [0; 4; 8] = 361 / 137.
Proof.
  unfold welch_df, var, ssqdm, Stats.mean. simpl.
  match goal with |- context [Req_dec_T ?a 0] => destruct (Req_dec_T a 0) as [E|E] end.
  - exfalso. field_simplify in E. lra.
  - field.
Qed.

(** C1 on the code.  For the samples [0, 2] and [0, 4, 8] the section
    shows 3 degrees of freedom, the pooled count, next to the p-value of a
    Welch test whose Welch-Satterthwaite degrees of freedom are 361/137. *)
Theorem dof_metric_is_not_welch :
  extracted frame_unequal first_and_second
  = Ok (Some (("a", [0; 2]), ("b", [0; 4; 8])))
  /\ (exists events,
        ttest_section cauchy_sf frame_unequal first_and_second = Ok events
        /\ metric "Degrees of Freedom" events = Some (VInt 3))
  /\ welch_df [0; 2] [0; 4; 8] = 361 / 137
  /\ IZR 3 <> 361 / 137.
Proof.
  split; [reflexivity|]. split; [|split; [apply welch_df_unequal|lra]].
  destruct (ttest_section_extracted cauchy_sf frame_unequal first_and_second
              "a" "b" [0; 2] [0; 4; 8] eq_refl) as (p & Hp & E).
  eexists. split; [exact E|].
  rewrite metric_after_selectors by exact Hp.
  now rewrite dof_metric_pooled by (simpl; lia).
Qed.

(** ** The verdict of the test *)

Lemma Rsum_squares_nonneg (f : R -> R) (l : list R) :
  0 <= Rsum (map (fun x => f x * f x) l).
Proof.
  induction l as [|x l IH]; simpl; [lra|]. nra.
Qed.

Lemma ssqdm_nonneg (l : list R) : 0 <= ssqdm l.
Proof. apply (Rsum_squares_nonneg (fun x => x - Stats.mean l)). Qed.

Lemma INR_length_gt_1 {A} (l : list A) : (1 < List.length l)%nat -> 1 < INR (List.length l).
Proof. intros H. apply (lt_INR 1). exact H. Qed.

Lemma verdict_tested (sf : R -> R -> R) (g1 g2 : string) (d1 d2 : list R) :
  (1 < List.length d1)%nat -> (1 < List.length d2)%nat ->
  verdict (ttest_block sf g1 g2 d1 d2)
  = Some (nan_ltb (snd (ttest_ind sf d1 d2)) 0.05).
Proof.
  intros H1 H2. rewrite ttest_block_tested by assumption. simpl.
  now destruct (nan_ltb _ _).
Qed.

(** ** The same label in both selectors *)

Lemma welch_denom_same_sample (d : list R) :
  (1 < List.length d)%nat ->
  (welch_denom d d = 0 <-> ssqdm d = 0).
Proof.
  intros Hn. apply INR_length_gt_1 in Hn.
  pose proof (ssqdm_nonneg d) as Hs.
  unfold welch_denom, var.
  set (n := INR (List.length d)) in *. set (s := ssqdm d) in *.
  assert (E : s / (n - 1) / n + s / (n - 1) / n = 2 * s / ((n - 1) * n))
    by (field; lra).
  rewrite E. split; intros H.
  - apply sqrt_eq_0 in H.
    + assert (H' : 2 * s = 0).
      { replace (2 * s) with (2 * s / ((n - 1) * n) * ((n - 1) * n))
          by (field; lra). rewrite H. ring. }
      lra.
    + apply Rmult_le_pos; [lra|]. apply Rlt_le, Rinv_0_lt_compat. nra.
  - rewrite H. replace (2 * 0 / ((n - 1) * n)) with 0 by (field; lra).
    apply sqrt_0.
Qed.

(** The statistic of a sample against itself: [0/0] is NaN when all its
    values are equal, and 0 otherwise. *)
Lemma t_statistic_same_sample (sf : R -> R -> R) (g : string) (d : list R) :
  (1 < List.length d)%nat ->
  metric "t-statistic" (ttest_block sf g g d d)
  = Some (VStat (if Req_dec_T (ssqdm d) 0 then NaN else Fin 0)).
Proof.
  intros Hn. rewrite ttest_block_tested by assumption. simpl.
  do 2 f_equal. unfold fdiv. rewrite Rminus_diag.
  pose proof (welch_denom_same_sample d Hn) as [H1 H2].
  destruct (Req_dec_T (welch_denom d d) 0) as [E|E];
    destruct (Req_dec_T (ssqdm d) 0) as [E'|E']; try tauto.
  - destruct (Req_dec_T 0 0) as [_|C]; [reflexivity | now destruct C].
  - f_equal. unfold Rdiv. apply Rmult_0_l.
Qed.

Lemma ssqdm_constant_pair : ssqdm [5; 5] = 0.
Proof. unfold ssqdm, Stats.mean. simpl. field. Qed.

(** C10 as stated fails: with the label [a] in both selectors and the
    sample [5, 5] the test runs and its t statistic is NaN, not 0. *)
Lemma constant_sample_has_nan_statistic :
  extracted frame_constant_group first_choices
  = Ok (Some (("a", [5; 5]), ("a", [5; 5])))
  /\ exists events,
       ttest_section cauchy_sf frame_constant_group first_choices = Ok events
       /\ metric "t-statistic" events = Some (VStat NaN)
       /\ metric "t-statistic" events <> Some (VStat (Fin 0)).
Proof.
  split; [reflexivity|].
  destruct (ttest_section_extracted cauchy_sf frame_constant_group
              first_choices "a" "a" [5; 5] [5; 5] eq_refl) as (p & Hp & E).
  eexists. split; [exact E|].
  rewrite metric_after_selectors by exact Hp.
  rewrite t_statistic_same_sample by (simpl; lia).
  destruct (Req_dec_T (ssqdm [5; 5]) 0) as [_|C].
  - split; [reflexivity | discriminate].
  - destruct C. apply ssqdm_constant_pair.
Qed.

(** ** Correlation coefficients *)

(** *** Sums of products *)

Lemma ratio_in_unit_interval (c d : R) :
  0 < d -> c * c <= d * d -> -1 <= c / d <= 1.
Proof.
  intros Hd Hc.
  assert (Hle : -d <= c <= d) by (split; nra).
  split.
  - apply Rmult_le_reg_r with d; [exact Hd|].
    unfold Rdiv. rewrite Rmult_assoc, Rinv_l by lra. lra.
  - apply Rmult_le_reg_r with d; [exact Hd|].
    unfold Rdiv. rewrite Rmult_assoc, Rinv_l by lra. lra.
Qed.

(** Cauchy-Schwarz for a list of pairs. *)
Lemma sum_products_squared (l : list (R * R)) :
  let A := Rsum (map (fun p => fst p * fst p) l) in
  let B := Rsum (map (fun p => snd p * snd p) l) in
  let C := Rsum (map (fun p => fst p * snd p) l) in
  0 <= A /\ 0 <= B /\ C * C <= A * B.
Proof.
  induction l as [|[x y] l IH]; simpl in *.
  - repeat split; lra.
  - destruct IH as (HA & HB & HC).
    set (A := Rsum (map (fun p => fst p * fst p) l)) in *.
    set (B := Rsum (map (fun p => snd p * snd p) l)) in *.
    set (C := Rsum (map (fun p => fst p * snd p) l)) in *.
    repeat split; [nra | nra |].
    assert (Hu : 0 <= x * x * B + y * y * A) by nra.
    assert (Hv : (2 * (x * y) * C) * (2 * (x * y) * C)
                 <= (x * x * B + y * y * A) * (x * x * B + y * y * A)).
    { assert (H1 : (x * y) * (x * y) * (C * C) <= (x * y) * (x * y) * (A * B))
        by (apply Rmult_le_compat_l; nra).
      assert (H2 : 0 <= (x * x * B - y * y * A) * (x * x * B - y * y * A))
        by apply Rle_0_sqr.
      replace ((x * x * B + y * y * A) * (x * x * B + y * y * A))
        with ((x * x * B - y * y * A) * (x * x * B - y * y * A)
              + 4 * (x * y * (x * y) * (A * B))) by ring.
      replace (2 * (x * y) * C * (2 * (x * y) * C))
        with (4 * (x * y * (x * y) * (C * C))) by ring.
      lra. }
    assert (Hw : 2 * (x * y) * C <= x * x * B + y * y * A).
    { destruct (Rle_lt_dec (2 * (x * y) * C) (x * x * B + y * y * A)) as [|Hlt];
        [assumption|].
      exfalso.
      assert (0 <= 2 * (x * y) * C) by lra.
      assert ((x * x * B + y * y * A) * (x * x * B + y * y * A)
              < (2 * (x * y) * C) * (2 * (x * y) * C))
        by (apply Rmult_le_0_lt_compat; lra).
      lra. }
    replace ((x * y + C) * (x * y + C))
      with (x * y * (x * y) + 2 * (x * y) * C + C * C) by ring.
    replace ((x * x + A) * (y * y + B))
      with (x * y * (x * y) + (x * x * B + y * y * A) + A * B) by ring.
    lra.
Qed.

Lemma combine_map_fst_snd {A B} (l : list (A * B)) :
  combine (map fst l) (map snd l) = l.
Proof. induction l as [|[a b] l IH]; simpl; congruence. Qed.

Lemma map_fst_combine {A B} (xs : list A) (ys : list B) :
  List.length xs = List.length ys -> map fst (combine xs ys) = xs.
Proof.
  revert ys; induction xs as [|x xs IH]; intros [|y ys]; simpl;
    try discriminate; auto.
  intros [= H]. now rewrite IH.
Qed.

Lemma map_snd_combine {A B} (xs : list A) (ys : list B) :
  List.length xs = List.length ys -> map snd (combine xs ys) = ys.
Proof.
  revert ys; induction xs as [|x xs IH]; intros [|y ys]; simpl;
    try discriminate; auto.
  intros [= H]. now rewrite IH.
Qed.

(** Deviations about any two centres. *)
Lemma deviations_squared (a b : R) (xs ys : list R) :
  List.length xs = List.length ys ->
  Rsum (map (fun p => (fst p - a) * (snd p - b)) (combine xs ys))
  * Rsum (map (fun p => (fst p - a) * (snd p - b)) (combine xs ys))
  <= Rsum (map (fun x => (x - a) * (x - a)) xs)
     * Rsum (map (fun y => (y - b) * (y - b)) ys).
Proof.
  intros Hlen.
  pose proof (sum_products_squared
                (map (fun p => (fst p - a, snd p - b)) (combine xs ys))) as H.
  cbv zeta in H. rewrite !map_map in H. simpl in H.
  destruct H as (_ & _ & H).
  assert (Ex : map (fun p : R * R => (fst p - a) * (fst p - a)) (combine xs ys)
               = map (fun x => (x - a) * (x - a)) xs).
  { rewrite <- (map_fst_combine xs ys Hlen) at 2. now rewrite map_map. }
  assert (Ey : map (fun p : R * R => (snd p - b) * (snd p - b)) (combine xs ys)
               = map (fun y => (y - b) * (y - b)) ys).
  { rewrite <- (map_snd_combine xs ys Hlen) at 2. now rewrite map_map. }
  rewrite Ex, Ey in H. exact H.
Qed.

Lemma codm_squared (xs ys : list R) :
  List.length xs = List.length ys ->
  codm xs ys * codm xs ys <= ssqdm xs * ssqdm ys.
Proof.
  intros H. apply (deviations_squared (Stats.mean xs) (Stats.mean ys) xs ys H).
Qed.

Lemma codm_sym_centres (a b : R) (xs ys : list R) :
  Rsum (map (fun p => (fst p - a) * (snd p - b)) (combine xs ys))
  = Rsum (map (fun p => (fst p - b) * (snd p - a)) (combine ys xs)).
Proof.
  revert ys; induction xs as [|x xs IH]; intros [|y ys]; simpl; auto.
  rewrite IH. ring.
Qed.

Lemma codm_sym (xs ys : list R) : codm xs ys = codm ys xs.
Proof. apply codm_sym_centres. Qed.

Lemma codm_diag (xs : list R) : codm xs xs = ssqdm xs.
Proof.
  unfold codm, ssqdm. generalize (Stats.mean xs) as a. intros a.
  induction xs as [|x xs IH]; simpl; auto. now rewrite IH.
Qed.

(** *** Pearson *)

Lemma pearson_r_sym (xs ys : list R) : pearson_r xs ys = pearson_r ys xs.
Proof.
  unfold pearson_r. now rewrite codm_sym, (Rmult_comm (ssqdm xs)).
Qed.

Lemma pearson_r_bounds (xs ys : list R) (r : R) :
  List.length xs = List.length ys ->
  pearson_r xs ys = Some r -> -1 <= r <= 1.
Proof.
  intros Hlen. unfold pearson_r.
  destruct (Req_dec_T (sqrt (ssqdm xs * ssqdm ys)) 0) as [|Hd]; [discriminate|].
  intros [= <-].
  pose proof (ssqdm_nonneg xs) as Hx. pose proof (ssqdm_nonneg ys) as Hy.
  apply ratio_in_unit_interval.
  - pose proof (sqrt_pos (ssqdm xs * ssqdm ys)). lra.
  - rewrite sqrt_sqrt by (apply Rmult_le_pos; assumption).
    now apply codm_squared.
Qed.

Lemma pearson_r_diag (xs : list R) :
  ssqdm xs <> 0 -> pearson_r xs xs = Some 1.
Proof.
  intros Hs. pose proof (ssqdm_nonneg xs) as Hx.
  unfold pearson_r. rewrite sqrt_square by assumption.
  destruct (Req_dec_T (ssqdm xs) 0) as [|_]; [contradiction|].
  rewrite codm_diag. f_equal. now field.
Qed.

(** *** Pairwise-complete observations *)

Lemma complete_pairs_swap (xs ys : list (option R)) :
  complete_pairs ys xs = map swap (complete_pairs xs ys).
Proof.
  revert ys; induction xs as [|[x|] xs IH]; intros [|[y|] ys]; simpl; auto.
  now rewrite IH.
Qed.

Lemma complete_pairs_diag (xs : list (option R)) :
  complete_pairs xs xs = map (fun x => (x, x)) (dropna xs).
Proof.
  induction xs as [|[x|] xs IH]; simpl; auto. now rewrite IH.
Qed.

Lemma nancorr_sym (xs ys : list (option R)) : nancorr xs ys = nancorr ys xs.
Proof.
  unfold nancorr. rewrite (complete_pairs_swap xs ys).
  rewrite length_map, !map_map. simpl.
  destruct (_ <? 1)%nat; auto. apply pearson_r_sym.
Qed.

Lemma nancorr_bounds (xs ys : list (option R)) (r : R) :
  nancorr xs ys = Some r -> -1 <= r <= 1.
Proof.
  unfold nancorr. destruct (_ <? 1)%nat; [discriminate|].
  apply pearson_r_bounds. now rewrite !length_map.
Qed.

Lemma ssqdm_nil : ssqdm [] = 0.
Proof. reflexivity. Qed.

Lemma nonempty_of_spread (d : list R) :
  ssqdm d <> 0 -> (List.length d <? 1)%nat = false.
Proof.
  destruct d; [intros H; now destruct H|]. reflexivity.
Qed.

Lemma nancorr_diag (xs : list (option R)) :
  ssqdm (dropna xs) <> 0 -> nancorr xs xs = Some 1.
Proof.
  intros Hs. unfold nancorr. rewrite complete_pairs_diag, length_map.
  rewrite (nonempty_of_spread _ Hs), !map_map. simpl. rewrite map_id.
  now apply pearson_r_diag.
Qed.

(** *** Spearman *)

Lemma length_ranks (l : list R) : List.length (ranks l) = List.length l.
Proof. apply length_map. Qed.

Lemma Rsum_squares_zero (f : R -> R) (l : list R) :
  Rsum (map (fun x => f x * f x) l) = 0 -> forall x, In x l -> f x = 0.
Proof.
  induction l as [|a l IH]; simpl; intros H x Hx; [contradiction|].
  pose proof (Rsum_squares_nonneg f l) as Hl.
  assert (Ha : 0 <= f a * f a) by apply Rle_0_sqr.
  destruct Hx as [<-|Hx].
  - assert (E : f a * f a = 0) by lra.
    apply Rmult_integral in E. tauto.
  - apply IH; [lra | assumption].
Qed.

Lemma ssqdm_zero_all_mean (l : list R) :
  ssqdm l = 0 -> forall x, In x l -> x = Stats.mean l.
Proof.
  intros H x Hx.
  pose proof (Rsum_squares_zero (fun x => x - Stats.mean l) l H x Hx). lra.
Qed.

Lemma Rsum_constant (c : R) (l : list R) :
  (forall x, In x l -> x = c) -> Rsum l = c * INR (List.length l).
Proof.
  induction l as [|a l IH]; intros H.
  - simpl. ring.
  - change (Rsum (a :: l)) with (a + Rsum l).
    change (List.length (a :: l)) with (S (List.length l)).
    rewrite S_INR, IH by (intros x Hx; apply H; simpl; auto).
    rewrite (H a) by (simpl; auto). ring.
Qed.

Lemma Rsum_zero (f : R -> R) (l : list R) :
  (forall x, In x l -> f x = 0) -> Rsum (map f l) = 0.
Proof.
  induction l as [|a l IH]; simpl; intros H; auto.
  rewrite IH, (H a) by auto. lra.
Qed.

Lemma ssqdm_of_constant (l : list R) :
  (forall x y, In x l -> In y l -> x = y) -> ssqdm l = 0.
Proof.
  intros H. destruct l as [|c l]; [reflexivity|].
  assert (Hc : forall x, In x (c :: l) -> x = c)
    by (intros x Hx; apply H; simpl; auto).
  assert (Hm : Stats.mean (c :: l) = c).
  { unfold Stats.mean. rewrite (Rsum_constant c) by exact Hc.
    field. change (List.length (c :: l)) with (S (List.length l)).
    rewrite S_INR. pose proof (pos_INR (List.length l)). lra. }
  unfold ssqdm. rewrite Hm.
  apply (Rsum_zero (fun x => (x - c) * (x - c))).
  intros x Hx. rewrite (Hc x Hx). ring.
Qed.

Lemma count_lt_eq_le (l : list R) (x y : R) :
  x < y -> (count_lt l x + count_eq l x <= count_lt l y)%nat.
Proof.
  intros Hxy. unfold count_lt, count_eq.
  induction l as [|a l IH]; simpl; [lia|].
  destruct (Rlt_dec a x); destruct (Req_dec_T a x); destruct (Rlt_dec a y);
    simpl; try lia; lra.
Qed.

Lemma count_eq_pos (l : list R) (x : R) :
  In x l -> (1 <= count_eq l x)%nat.
Proof.
  unfold count_eq. induction l as [|a l IH]; simpl; [contradiction|].
  intros [->|H].
  - destruct (Req_dec_T x x) as [_|C]; [|now destruct C].
    cbn [List.length]. lia.
  - apply IH in H. destruct (Req_dec_T a x); cbn [List.length]; lia.
Qed.

Lemma rank_lt (l : list R) (x y : R) :
  In x l -> x < y -> rank l x < rank l y.
Proof.
  intros Hx Hxy. unfold rank.
  pose proof (le_INR _ _ (count_lt_eq_le l x y Hxy)) as H1.
  rewrite plus_INR in H1.
  pose proof (le_INR _ _ (count_eq_pos l x Hx)) as H2. simpl in H2.
  pose proof (pos_INR (count_eq l y)) as H3.
  lra.
Qed.

(** Values that differ have ranks that differ. *)
Lemma ranks_spread (l : list R) : ssqdm l <> 0 -> ssqdm (ranks l) <> 0.
Proof.
  intros Hs Hr. apply Hs. apply ssqdm_of_constant.
  intros x y Hx Hy.
  assert (E : rank l x = rank l y).
  { rewrite (ssqdm_zero_all_mean _ Hr (rank l x)) by (now apply in_map).
    rewrite (ssqdm_zero_all_mean _ Hr (rank l y)) by (now apply in_map).
    reflexivity. }
  destruct (Rtotal_order x y) as [H|[H|H]]; [|assumption|].
  - pose proof (rank_lt l x y Hx H). lra.
  - pose proof (rank_lt l y x Hy H). lra.
Qed.

Lemma map_fst_swap (ps : list (R * R)) : map fst (map swap ps) = map snd ps.
Proof. rewrite map_map. reflexivity. Qed.

Lemma map_snd_swap (ps : list (R * R)) : map snd (map swap ps) = map fst ps.
Proof. rewrite map_map. reflexivity. Qed.

Lemma nancorr_spearman_sym (xs ys : list (option R)) :
  nancorr_spearman xs ys = nancorr_spearman ys xs.
Proof.
  unfold nancorr_spearman. rewrite (complete_pairs_swap xs ys).
  rewrite length_map, map_fst_swap, map_snd_swap.
  destruct (_ <? 1)%nat; auto. apply pearson_r_sym.
Qed.

Lemma nancorr_spearman_bounds (xs ys : list (option R)) (r : R) :
  nancorr_spearman xs ys = Some r -> -1 <= r <= 1.
Proof.
  unfold nancorr_spearman. destruct (_ <? 1)%nat; [discriminate|].
  apply pearson_r_bounds. now rewrite !length_ranks, !length_map.
Qed.

Lemma nancorr_spearman_diag (xs : list (option R)) :
  ssqdm (dropna xs) <> 0 -> nancorr_spearman xs xs = Some 1.
Proof.
  intros Hs. unfold nancorr_spearman.
  rewrite complete_pairs_diag, length_map.
  rewrite (nonempty_of_spread _ Hs), !map_map. simpl. rewrite map_id.
  now apply pearson_r_diag, ranks_spread.
Qed.

(** *** Kendall *)

Lemma length_filter_map {A B} (f : B -> bool) (g : A -> bool) (h : A -> B)
      (l : list A) :
  (forall a, f (h a) = g a) ->
  List.length (filter f (map h l)) = List.length (filter g l).
Proof.
  intros H. induction l as [|a l IH]; simpl; auto.
  rewrite H. destruct (g a); simpl; auto.
Qed.

Lemma pair_count_map (f g : R * R -> R * R -> bool) (h : R * R -> R * R)
      (ps : list (R * R)) :
  (forall p q, f (h p) (h q) = g p q) ->
  pair_count f (map h ps) = pair_count g ps.
Proof.
  intros H. induction ps as [|p ps IH]; simpl; auto.
  rewrite IH. f_equal. apply length_filter_map. intros q. apply H.
Qed.

Lemma concordant_swap (p q : R * R) :
  concordant (swap p) (swap q) = concordant p q.
Proof.
  unfold concordant, swap. simpl.
  rewrite (Rmult_comm (snd p - snd q)). reflexivity.
Qed.

Lemma discordant_swap (p q : R * R) :
  discordant (swap p) (swap q) = discordant p q.
Proof.
  unfold discordant, swap. simpl.
  rewrite (Rmult_comm (snd p - snd q)). reflexivity.
Qed.

Lemma x_untied_swap (p q : R * R) : x_untied (swap p) (swap q) = y_untied p q.
Proof. reflexivity. Qed.

Lemma y_untied_swap (p q : R * R) : y_untied (swap p) (swap q) = x_untied p q.
Proof. reflexivity. Qed.

Lemma kendalltau_swap (ps : list (R * R)) :
  kendalltau (map swap ps) = kendalltau ps.
Proof.
  unfold kendalltau.
  rewrite (pair_count_map concordant concordant swap ps concordant_swap).
  rewrite (pair_count_map discordant discordant swap ps discordant_swap).
  rewrite (pair_count_map x_untied y_untied swap ps x_untied_swap).
  rewrite (pair_count_map y_untied x_untied swap ps y_untied_swap).
  rewrite orb_comm, (Rmult_comm (sqrt (INR (pair_count y_untied ps)))).
  reflexivity.
Qed.

Lemma length_filter_two (f g h : R * R -> bool) (l : list (R * R)) :
  (forall q, f q = true -> h q = true) ->
  (forall q, g q = true -> h q = true) ->
  (forall q, f q = true -> g q = true -> False) ->
  (List.length (filter f l) + List.length (filter g l)
   <= List.length (filter h l))%nat.
Proof.
  intros Hf Hg Hfg. induction l as [|q l IH]; simpl; [lia|].
  specialize (Hf q). specialize (Hg q). specialize (Hfg q).
  destruct (f q), (g q), (h q); cbn [List.length]; try lia;
    try (exfalso; auto; fail);
    try (specialize (Hf eq_refl); discriminate);
    try (specialize (Hg eq_refl); discriminate).
Qed.

Lemma pair_count_two (f g h : R * R -> R * R -> bool) (ps : list (R * R)) :
  (forall p q, f p q = true -> h p q = true) ->
  (forall p q, g p q = true -> h p q = true) ->
  (forall p q, f p q = true -> g p q = true -> False) ->
  (pair_count f ps + pair_count g ps <= pair_count h ps)%nat.
Proof.
  intros Hf Hg Hfg. induction ps as [|p ps IH]; simpl; [lia|].
  pose proof (length_filter_two (f p) (g p) (h p) ps
                (Hf p) (Hg p) (Hfg p)). lia.
Qed.

Lemma concordant_true (p q : R * R) :
  concordant p q = true -> 0 < (fst p - fst q) * (snd p - snd q).
Proof. unfold concordant. destruct (Rlt_dec _ _); [auto|discriminate]. Qed.

Lemma discordant_true (p q : R * R) :
  discordant p q = true -> (fst p - fst q) * (snd p - snd q) < 0.
Proof. unfold discordant. destruct (Rlt_dec _ _); [auto|discriminate]. Qed.

Lemma untied_of_product (a b c d : R) :
  (a - b) * (c - d) <> 0 -> a <> b /\ c <> d.
Proof. intros H. split; intros E; apply H; rewrite E; ring. Qed.

Lemma x_untied_of (p q : R * R) :
  (fst p - fst q) * (snd p - snd q) <> 0 -> x_untied p q = true.
Proof.
  intros H. apply untied_of_product in H as [H _].
  unfold x_untied. destruct (Req_dec_T _ _); [contradiction|reflexivity].
Qed.

Lemma y_untied_of (p q : R * R) :
  (fst p - fst q) * (snd p - snd q) <> 0 -> y_untied p q = true.
Proof.
  intros H. apply untied_of_product in H as [_ H].
  unfold y_untied. destruct (Req_dec_T _ _); [contradiction|reflexivity].
Qed.

(** Pairs that are concordant or discordant are tied in neither column. *)
Lemma decided_pairs_le_x (ps : list (R * R)) :
  (pair_count concordant ps + pair_count discordant ps
   <= pair_count x_untied ps)%nat.
Proof.
  apply pair_count_two; intros p q H.
  - apply concordant_true in H. apply x_untied_of. lra.
  - apply discordant_true in H. apply x_untied_of. lra.
  - intros H'. apply concordant_true in H. apply discordant_true in H'. lra.
Qed.

Lemma decided_pairs_le_y (ps : list (R * R)) :
  (pair_count concordant ps + pair_count discordant ps
   <= pair_count y_untied ps)%nat.
Proof.
  apply pair_count_two; intros p q H.
  - apply concordant_true in H. apply y_untied_of. lra.
  - apply discordant_true in H. apply y_untied_of. lra.
  - intros H'. apply concordant_true in H. apply discordant_true in H'. lra.
Qed.

Lemma kendalltau_bounds (ps : list (R * R)) (r : R) :
  kendalltau ps = Some r -> -1 <= r <= 1.
Proof.
  unfold kendalltau.
  pose proof (decided_pairs_le_x ps) as Hx.
  pose proof (decided_pairs_le_y ps) as Hy.
  set (con := pair_count concordant ps) in *.
  set (dis := pair_count discordant ps) in *.
  set (nx := pair_count x_untied ps) in *.
  set (ny := pair_count y_untied ps) in *.
  destruct (Nat.eqb_spec nx 0); [discriminate|].
  destruct (Nat.eqb_spec ny 0); [discriminate|]. simpl.
  intros [= <-].
  apply le_INR in Hx, Hy. rewrite plus_INR in Hx, Hy.
  pose proof (pos_INR con) as Hc. pose proof (pos_INR dis) as Hd.
  assert (Hnx : 0 < INR nx) by (apply lt_0_INR; lia).
  assert (Hny : 0 < INR ny) by (apply lt_0_INR; lia).
  apply ratio_in_unit_interval.
  - apply Rmult_lt_0_compat; now apply sqrt_lt_R0.
  - replace (sqrt (INR nx) * sqrt (INR ny) * (sqrt (INR nx) * sqrt (INR ny)))
      with (sqrt (INR nx) * sqrt (INR nx) * (sqrt (INR ny) * sqrt (INR ny)))
      by ring.
    rewrite !sqrt_sqrt by lra.
    assert (H1 : (INR con - INR dis) * (INR con - INR dis)
                 <= (INR con + INR dis) * (INR con + INR dis)) by nra.
    assert (H2 : (INR con + INR dis) * (INR con + INR dis)
                 <= INR nx * INR ny)
      by (apply Rmult_le_compat; lra).
    lra.
Qed.

(** *** One entry of the matrix *)

Lemma corr_entry_sym (m : method) (i j : nat) (xs ys : list (option R)) :
  corr_entry m i j xs ys = corr_entry m j i ys xs.
Proof.
  destruct m; simpl.
  - apply nancorr_sym.
  - apply nancorr_spearman_sym.
  - rewrite (complete_pairs_swap xs ys), length_map, kendalltau_swap.
    now rewrite (Nat.eqb_sym j i).
Qed.

Lemma corr_entry_bounds (m : method) (i j : nat) (xs ys : list (option R))
      (r : R) :
  corr_entry m i j xs ys = Some r -> -1 <= r <= 1.
Proof.
  destruct m; simpl.
  - apply nancorr_bounds.
  - apply nancorr_spearman_bounds.
  - destruct (_ <? 1)%nat; [discriminate|].
    destruct (i =? j)%nat.
    + intros [= <-]. lra.
    + apply kendalltau_bounds.
Qed.

Lemma corr_entry_diag (m : method) (i : nat) (xs : list (option R)) :
  ssqdm (dropna xs) <> 0 -> corr_entry m i i xs xs = Some 1.
Proof.
  intros Hs. destruct m; simpl.
  - now apply nancorr_diag.
  - now apply nancorr_spearman_diag.
  - rewrite complete_pairs_diag, length_map, (nonempty_of_spread _ Hs).
    now rewrite Nat.eqb_refl.
Qed.

(** *** The matrix *)

Lemma nth_error_combine_seq {A} (l : list A) (s i : nat) :
  nth_error (combine (seq s (List.length l)) l) i
  = option_map (pair (s + i)%nat) (nth_error l i).
Proof.
  revert s i. induction l as [|a l IH]; intros s [|i]; simpl; auto.
  - now rewrite Nat.add_0_r.
  - rewrite IH. now rewrite Nat.add_succ_r.
Qed.

Lemma nth_error_enumerate {A} (l : list A) (i : nat) :
  nth_error (enumerate l) i = option_map (pair i) (nth_error l i).
Proof. apply (nth_error_combine_seq l 0 i). Qed.

Lemma entry_corr (m : method) (cols : list (list (option R))) (i j : nat) :
  entry (corr m cols) i j
  = match nth_error cols i, nth_error cols j with
    | Some xs, Some ys => Some (corr_entry m i j xs ys)
    | _, _ => None
    end.
Proof.
  unfold entry, corr.
  rewrite nth_error_map, nth_error_enumerate.
  destruct (nth_error cols i) as [xs|]; simpl; auto.
  rewrite nth_error_map, nth_error_enumerate.
  destruct (nth_error cols j) as [ys|]; simpl; auto.
Qed.

Lemma nth_error_in_range {A} (l : list A) (i : nat) :
  (i < List.length l)%nat -> exists a, nth_error l i = Some a.
Proof.
  intros H. destruct (nth_error l i) eqn:E; eauto.
  apply nth_error_None in E. lia.
Qed.

(** * Further properties of the sections *)

(** ** The groups of a grouping column *)

Lemma subseq_filter_left {A} (f : A -> bool) (s l : list A) :
  subseq s l -> subseq (filter f s) l.
Proof.
  induction 1; simpl.
  - constructor.
  - now constructor.
  - destruct (f x); now constructor.
Qed.

Lemma unique_In (l : list string) (x : string) : In x (unique l) <-> In x l.
Proof.
  induction l as [|a l IH]; simpl; [tauto|].
  rewrite filter_In, IH.
  destruct (String.eqb_spec x a) as [->|Hne]; simpl; intuition congruence.
Qed.

Lemma unique_NoDup (l : list string) : NoDup (unique l).
Proof.
  induction l as [|a l IH]; simpl; constructor.
  - rewrite filter_In. intros [_ H]. now rewrite String.eqb_refl in H.
  - now apply NoDup_filter.
Qed.

Lemma unique_subseq (l : list string) : subseq (unique l) l.
Proof.
  induction l as [|a l IH]; simpl; [constructor|].
  apply subseq_keep. now apply subseq_filter_left.
Qed.

Lemma In_dropna {A} (cells : list (option A)) (x : A) :
  In x (dropna cells) <-> In (Some x) cells.
Proof.
  induction cells as [|[v|] t IH]; simpl; [tauto| |].
  - rewrite IH. intuition congruence.
  - rewrite IH. intuition discriminate.
Qed.

Lemma in_split_first (h : string) (l : list string) :
  In h l -> exists p q, l = p ++ h :: q /\ ~ In h p.
Proof.
  induction l as [|x l IH]; [contradiction|]. intros Hin.
  destruct (string_dec x h) as [->|Hne].
  - exists [], l. split; [reflexivity|]. intros [].
  - destruct Hin as [->|Hin]; [contradiction|].
    destruct (IH Hin) as (p & q & -> & Hp).
    exists (x :: p), q. split; [reflexivity|].
    intros [E|E]; [now apply Hne|now apply Hp].
Qed.

Lemma before_filter {A} (f : A -> bool) (g h : A) (l : list A) :
  before g h (filter f l) -> before g h l.
Proof.
  unfold before. induction l as [|x l IH]; simpl.
  - intros (l1 & l2 & E & _). now destruct l1.
  - destruct (f x) eqn:Ef.
    + intros (l1 & l2 & E & Hh). destruct l1 as [|y l1].
      * injection E as <- E. exists [], l. split; [reflexivity|].
        subst l2. now apply filter_In in Hh.
      * injection E as <- E.
        destruct IH as (k1 & k2 & -> & Hk); [now exists l1, l2|].
        now exists (x :: k1), k2.
    + intros H. destruct (IH H) as (k1 & k2 & -> & Hk).
      now exists (x :: k1), k2.
Qed.

(** [unique] lists the labels in the order of their first occurrences. *)
Lemma unique_order (l : list string) (g h : string) :
  before g h (unique l) -> first_seen_after g h l.
Proof.
  unfold first_seen_after.
  induction l as [|x l IH]; simpl.
  - intros (l1 & l2 & E & _). now destruct l1.
  - intros (l1 & l2 & E & Hh).
    assert (Hx : h <> x /\ In h l).
    { assert (Hf : In h (filter (fun y => negb (String.eqb y x)) (unique l))).
      { destruct l1 as [|y l1]; injection E as _ E.
        - now subst l2.
        - rewrite E. apply in_or_app. right. now right. }
      apply filter_In in Hf as [Hu Hn]. split; [|now apply unique_In].
      intros ->. now rewrite String.eqb_refl in Hn. }
    destruct Hx as [Hne Hl].
    destruct l1 as [|y l1]; injection E as Ex E.
    + subst x. destruct (in_split_first h l Hl) as (p & q & -> & Hp).
      exists (g :: p), q. split; [reflexivity|]. split; [|now left].
      intros [C|C]; [now apply Hne|now apply Hp].
    + subst y. destruct IH as (p & q & -> & Hp & Hg).
      { apply (before_filter (fun y => negb (String.eqb y x))).
        now exists l1, l2. }
      exists (x :: p), q. split; [reflexivity|]. split; [|now right].
      intros [C|C]; [now apply Hne|now apply Hp].
Qed.

(** X1.  The groups offered by the two group selectors are the labels of
    the grouping column: every non-missing label is listed, nothing else
    is, no label is listed twice, and the labels come in the order of
    their first rows: when [g] is listed before [h], the first row of [h]
    comes after a row of [g]. *)
Theorem groups_are_the_distinct_labels (df : DataFrame) (group_col : string)
        (groups : list string) :
  groups_of df group_col = Ok groups ->
  exists s labels,
    getitem df group_col = Ok s
    /\ label_cells s = Ok labels
    /\ NoDup groups
    /\ (forall g, In g groups <-> In (Some g) labels)
    /\ subseq groups (dropna labels)
    /\ (forall g h, before g h groups ->
                    first_seen_after g h (dropna labels)).
Proof.
  unfold groups_of.
  destruct (getitem df group_col) as [s|] eqn:Es; cbn [bind]; [|discriminate].
  destruct (label_cells s) as [labels|] eqn:El; cbn [bind]; [|discriminate].
  intros [= <-]. exists s, labels.
  split; [auto|]. split; [auto|]. split; [apply unique_NoDup|].
  split; [|split; [apply unique_subseq|apply unique_order]].
  intros g. split; intros H.
  - now apply In_dropna, unique_In.
  - now apply unique_In, In_dropna.
Qed.

Lemma groups_are_the_distinct_labels_witness :
  exists s labels,
    getitem frame_three_groups "region" = Ok s
    /\ label_cells s = Ok labels
    /\ NoDup ["a"; "b"; "c"]
    /\ (forall g, In g ["a"; "b"; "c"] <-> In (Some g) labels)
    /\ subseq ["a"; "b"; "c"] (dropna labels)
    /\ (forall g h, before g h ["a"; "b"; "c"] ->
                    first_seen_after g h (dropna labels)).
Proof.
  apply (groups_are_the_distinct_labels frame_three_groups "region").
  reflexivity.
Defined.

(** ** The samples of the groups *)

Lemma sample_rows (labels : list (option string)) (cells : list (option R))
      (g : string) :
  List.length (dropna (boolean_index (eq_mask labels g) cells))
  = List.length (filter (in_group g) (combine labels cells)).
Proof.
  revert cells. induction labels as [|[l|] labels IH]; intros [|[v|] cells];
    simpl; auto; try (destruct (String.eqb l g)); simpl; rewrite ?IH; auto.
Qed.

Lemma count_groups_of_row (gs : list string)
      (row : option string * option R) :
  NoDup gs ->
  (forall l v, row = (Some l, Some v) -> In l gs) ->
  list_sum (map (fun g => if in_group g row then 1 else 0)%nat gs)
  = (if complete_row row then 1 else 0)%nat.
Proof.
  destruct row as [[l|] [v|]]; simpl; intros Hnd Hin;
    try (clear; induction gs; simpl; auto; fail).
  specialize (Hin l v eq_refl).
  induction gs as [|g gs IH]; simpl; [contradiction|].
  inversion Hnd as [|? ? Hg Hnd']; subst.
  destruct (String.eqb_spec l g) as [->|Hne].
  - f_equal. clear IH Hin Hnd. induction gs as [|h gs IH]; simpl; auto.
    destruct (String.eqb_spec g h) as [->|_].
    + exfalso. apply Hg. simpl. auto.
    + simpl. apply IH.
      * intros H. apply Hg. simpl. auto.
      * now inversion Hnd'.
  - apply IH; auto. destruct Hin; [congruence|assumption].
Qed.

Lemma list_sum_map_add {A} (f h : A -> nat) (l : list A) :
  list_sum (map (fun a => f a + h a)%nat l)
  = (list_sum (map f l) + list_sum (map h l))%nat.
Proof. induction l as [|a l IH]; simpl; auto. rewrite IH. lia. Qed.

Lemma list_sum_map_const {A} (n : nat) (l : list A) :
  list_sum (map (fun _ => n) l) = (n * List.length l)%nat.
Proof. induction l as [|a l IH]; simpl; auto. rewrite IH. lia. Qed.

Lemma length_filter_cons {A} (f : A -> bool) (a : A) (l : list A) :
  List.length (filter f (a :: l))
  = ((if f a then 1 else 0) + List.length (filter f l))%nat.
Proof. simpl. destruct (f a); reflexivity. Qed.

Lemma groups_partition_rows (gs : list string)
      (rows : list (option string * option R)) :
  NoDup gs ->
  (forall l v, In (Some l, Some v) rows -> In l gs) ->
  list_sum (map (fun g => List.length (filter (in_group g) rows)) gs)
  = List.length (filter complete_row rows).
Proof.
  intros Hnd. induction rows as [|row rows IH]; intros Hin.
  - simpl. rewrite (list_sum_map_const 0). lia.
  - rewrite length_filter_cons.
    rewrite (map_ext _ (fun g => ((if in_group g row then 1 else 0)
                                  + List.length (filter (in_group g) rows))%nat))
      by (intros g; apply length_filter_cons).
    rewrite list_sum_map_add, IH by (intros l v H; apply (Hin l v); now right).
    f_equal. apply count_groups_of_row; auto.
    intros l v ->. apply (Hin l v). now left.
Qed.

Lemma In_combine_labels (labels : list (option string))
      (cells : list (option R)) (l : string) (v : R) :
  In (Some l, Some v) (combine labels cells) -> In (Some l) labels.
Proof. apply in_combine_l. Qed.

(** X2.  The samples of the groups share no row and leave none out: for a
    text grouping column and a numeric column, each group's sample holds
    one value per row of that label whose value is present, and the sizes
    of the samples of all the groups add up to the number of rows in which
    both the label and the value are present. *)
Theorem samples_partition_the_complete_rows (df : DataFrame)
        (group_col numeric_col : string) (s : series)
        (labels : list (option string)) (cells : list (option R)) :
  getitem df group_col = Ok s ->
  label_cells s = Ok labels ->
  getitem df numeric_col = Ok (Number cells) ->
  exists groups samples,
    groups_of df group_col = Ok groups
    /\ mapM (sample df group_col numeric_col) groups = Ok samples
    /\ map (@List.length R) samples
       = map (fun g => List.length (filter (in_group g) (combine labels cells)))
             groups
    /\ list_sum (map (@List.length R) samples)
       = List.length (filter complete_row (combine labels cells)).
Proof.
  intros Hg Hl Hn.
  exists (unique (dropna labels)).
  exists (map (fun g => dropna (boolean_index (eq_mask labels g) cells))
              (unique (dropna labels))).
  assert (Hs : forall g, sample df group_col numeric_col g
                         = Ok (dropna (boolean_index (eq_mask labels g) cells))).
  { intros g. unfold sample. rewrite Hg. cbn [bind]. rewrite Hl. cbn [bind].
    rewrite Hn. reflexivity. }
  assert (Hlen : map (@List.length R)
                   (map (fun g => dropna (boolean_index (eq_mask labels g) cells))
                        (unique (dropna labels)))
                 = map (fun g => List.length
                                   (filter (in_group g) (combine labels cells)))
                       (unique (dropna labels))).
  { rewrite map_map. apply map_ext. intros g. apply sample_rows. }
  repeat split.
  - unfold groups_of. rewrite Hg. cbn [bind]. now rewrite Hl.
  - apply mapM_ok. intros g _. apply Hs.
  - exact Hlen.
  - rewrite Hlen. apply groups_partition_rows.
    + apply unique_NoDup.
    + intros l v H. apply unique_In, In_dropna.
      eapply In_combine_labels; eauto.
Qed.

Lemma samples_partition_the_complete_rows_witness :
  exists groups samples,
    groups_of frame_three_groups "region" = Ok groups
    /\ mapM (sample frame_three_groups "region" "units") groups = Ok samples
    /\ map (@List.length R) samples
       = map (fun g =>
                List.length
                  (filter (in_group g)
                     (combine
                        [Some "a"; Some "b"; None; Some "a"; Some "c"; Some "b"]
                        [Some 1; Some 2; Some 3; None; Some 5; Some 6])))
             groups
    /\ list_sum (map (@List.length R) samples)
       = List.length
           (filter complete_row
              (combine
                 [Some "a"; Some "b"; None; Some "a"; Some "c"; Some "b"]
                 [Some 1; Some 2; Some 3; None; Some 5; Some 6])).
Proof.
  apply (samples_partition_the_complete_rows frame_three_groups
           "region" "units"
           (Object [Some "a"; Some "b"; None; Some "a"; Some "c"; Some "b"])).
  - reflexivity.
  - reflexivity.
  - reflexivity.
Defined.

(** ** The Welch test *)

Lemma welch_df_sym (a b : list R) : welch_df a b = welch_df b a.
Proof.
  unfold welch_df. cbv zeta.
  set (va := var a / INR (List.length a)).
  set (vb := var b / INR (List.length b)).
  rewrite (Rplus_comm (vb * vb / (INR (List.length b) - 1))).
  rewrite (Rplus_comm vb va). reflexivity.
Qed.

Lemma welch_denom_sym (a b : list R) : welch_denom a b = welch_denom b a.
Proof. unfold welch_denom. now rewrite Rplus_comm. Qed.

Lemma fdiv_opp (x y d : R) : fdiv (y - x) d = fp_neg (fdiv (x - y) d).
Proof.
  unfold fdiv. destruct (Req_dec_T d 0) as [_|Hd].
  - destruct (Req_dec_T (y - x) 0), (Req_dec_T (x - y) 0); try lra; auto.
    destruct (Rlt_dec 0 (y - x)), (Rlt_dec 0 (x - y)); simpl; auto; lra.
  - simpl. f_equal. unfold Rdiv. ring.
Qed.

(** The test on the two samples in the other order. *)
Lemma ttest_ind_swap (sf : R -> R -> R) (a b : list R) :
  fst (ttest_ind sf b a) = fp_neg (fst (ttest_ind sf a b))
  /\ snd (ttest_ind sf b a) = snd (ttest_ind sf a b).
Proof.
  unfold ttest_ind. cbn [fst snd].
  rewrite (welch_denom_sym b a), (welch_df_sym b a), fdiv_opp.
  split; [reflexivity|].
  destruct (fdiv (Stats.mean a - Stats.mean b) (welch_denom a b)); simpl; auto.
  now rewrite Rabs_Ropp.
Qed.

Lemma ttest_block_swap (sf : R -> R -> R) (g1 g2 : string)
      (d1 d2 : list R) :
  verdict (ttest_block sf g2 g1 d2 d1) = verdict (ttest_block sf g1 g2 d1 d2)
  /\ metric "p-value" (ttest_block sf g2 g1 d2 d1)
     = metric "p-value" (ttest_block sf g1 g2 d1 d2)
  /\ metric "Degrees of Freedom" (ttest_block sf g2 g1 d2 d1)
     = metric "Degrees of Freedom" (ttest_block sf g1 g2 d1 d2).
Proof.
  destruct (Nat.ltb_spec 1 (List.length d1)) as [H1|H1];
    destruct (Nat.ltb_spec 1 (List.length d2)) as [H2|H2];
    try (rewrite !ttest_block_rejected by lia; repeat split; reflexivity).
  rewrite !verdict_tested, !ttest_block_tested by assumption.
  destruct (ttest_ind_swap sf d1 d2) as [_ ->]. simpl.
  repeat split. do 2 f_equal. lia.
Qed.

Lemma ttest_block_swap_statistic (sf : R -> R -> R) (g1 g2 : string)
      (d1 d2 : list R) (t : fp) :
  metric "t-statistic" (ttest_block sf g1 g2 d1 d2) = Some (VStat t) ->
  metric "t-statistic" (ttest_block sf g2 g1 d2 d1) = Some (VStat (fp_neg t)).
Proof.
  destruct (Nat.ltb_spec 1 (List.length d1)) as [H1|H1];
    destruct (Nat.ltb_spec 1 (List.length d2)) as [H2|H2];
    try (rewrite (ttest_block_rejected sf g1 g2) by lia; discriminate).
  rewrite !ttest_block_tested by assumption.
  destruct (ttest_ind_swap sf d1 d2) as [-> _]. simpl.
  now intros [= ->].
Qed.

Lemma extracted_swap (df : DataFrame) (ui : selection) (c1 c2 : nat)
      (a b : string * list R) :
  extracted df (with_groups ui c1 c2) = Ok (Some (a, b)) ->
  extracted df (with_groups ui c2 c1) = Ok (Some (b, a)).
Proof.
  unfold extracted.
  change (selected_columns df (with_groups ui c2 c1))
    with (selected_columns df (with_groups ui c1 c2)).
  destruct (selected_columns df (with_groups ui c1 c2)) as [[[gc nc]|]|];
    cbn [bind]; try discriminate.
  destruct (groups_of df gc) as [groups|]; cbn [bind]; [|discriminate].
  destruct (2 <=? List.length groups)%nat; [|discriminate].
  cbn [with_groups sel_group1 sel_group2].
  destruct (chosen (selectbox groups c1)) as [l1|]; cbn [bind];
    [|discriminate].
  destruct (chosen (selectbox groups c2)) as [l2|]; cbn [bind];
    [|discriminate].
  destruct (sample df gc nc l1) as [s1|]; cbn [bind]; [|discriminate].
  destruct (sample df gc nc l2) as [s2|]; cbn [bind]; [|discriminate].
  intros [= <- <-]. reflexivity.
Qed.

(** X3.  Exchanging the choices of the two group selectors exchanges the two
    samples and changes nothing in the outcome of the test: the p-value,
    the degrees of freedom shown and the verdict are the same, and the t
    statistic is the opposite one. *)
Theorem exchanging_the_groups (sf : R -> R -> R) (df : DataFrame)
        (ui : selection) (c1 c2 : nat) (g1 g2 : string) (d1 d2 : list R) :
  extracted df (with_groups ui c1 c2) = Ok (Some ((g1, d1), (g2, d2))) ->
  extracted df (with_groups ui c2 c1) = Ok (Some ((g2, d2), (g1, d1)))
  /\ exists shown shown',
       ttest_section sf df (with_groups ui c1 c2) = Ok shown
       /\ ttest_section sf df (with_groups ui c2 c1) = Ok shown'
       /\ verdict shown' = verdict shown
       /\ metric "p-value" shown' = metric "p-value" shown
       /\ metric "Degrees of Freedom" shown'
          = metric "Degrees of Freedom" shown
       /\ (forall t, metric "t-statistic" shown = Some (VStat t) ->
           metric "t-statistic" shown' = Some (VStat (fp_neg t))).
Proof.
  intros He. pose proof (extracted_swap df ui c1 c2 _ _ He) as He'.
  split; [exact He'|].
  destruct (ttest_section_extracted sf _ _ _ _ _ _ He) as (p & Hp & E).
  destruct (ttest_section_extracted sf _ _ _ _ _ _ He') as (p' & Hp' & E').
  destruct (ttest_block_swap sf g1 g2 d1 d2) as (Hv & Hpv & Hdf).
  eexists. eexists. split; [exact E|]. split; [exact E'|].
  rewrite !verdict_after_selectors, !metric_after_selectors by assumption.
  repeat split; auto. apply ttest_block_swap_statistic.
Qed.

Lemma exchanging_the_groups_witness :
  extracted frame_unequal (with_groups first_choices 1 0)
  = Ok (Some (("b", [0; 4; 8]), ("a", [0; 2])))
  /\ exists shown shown',
       ttest_section cauchy_sf frame_unequal (with_groups first_choices 0 1)
       = Ok shown
       /\ ttest_section cauchy_sf frame_unequal (with_groups first_choices 1 0)
          = Ok shown'
       /\ verdict shown' = verdict shown
       /\ metric "p-value" shown' = metric "p-value" shown
       /\ metric "Degrees of Freedom" shown'
          = metric "Degrees of Freedom" shown
       /\ (forall t, metric "t-statistic" shown = Some (VStat t) ->
           metric "t-statistic" shown' = Some (VStat (fp_neg t))).
Proof.
  apply (exchanging_the_groups cauchy_sf frame_unequal first_choices 0 1
           "a" "b" [0; 2] [0; 4; 8]).
  reflexivity.
Defined.


(** *** The degrees of freedom *)







(** ** The missing-data metric *)

Lemma missing_ratio_with_rows (df : DataFrame) :
  well_formed df -> (0 < shape0 df)%nat ->
  missing_ratio df = Some (spec_missing_ratio df).
Proof.
  intros Hwf Hrows. unfold well_formed in Hwf. rewrite Forall_forall in Hwf.
  unfold missing_ratio, isnull_mean.
  rewrite (map_ext_in _
    (fun c => Some (INR (missing_cells (col_data c)) / INR (shape0 df)))).
  - apply nanmean_all_present. destruct df; [simpl in Hrows; lia|easy].
  - intros c Hc. rewrite bool_mean_rows.
    + now rewrite length_isnull, (Hwf c Hc).
    + intros E. apply (f_equal (@List.length bool)) in E.
      rewrite length_isnull, (Hwf c Hc) in E. simpl in E. lia.
Qed.

Lemma Rsum_map_ratio {A} (f : A -> nat) (d : R) (l : list A) :
  Rsum (map (fun a => INR (f a) / d) l) = INR (list_sum (map f l)) / d.
Proof.
  induction l as [|a l IH]; simpl.
  - unfold Rdiv. now rewrite Rmult_0_l.
  - rewrite IH, plus_INR. unfold Rdiv. ring.
Qed.

Lemma missing_cells_le (s : series) : (missing_cells s <= len s)%nat.
Proof.
  unfold missing_cells. rewrite <- (length_isnull s). apply filter_length_le.
Qed.

Lemma total_missing_le (df : DataFrame) :
  well_formed df -> (total_missing df <= shape0 df * shape1 df)%nat.
Proof.
  unfold well_formed, total_missing, shape1. generalize (shape0 df) as n.
  intros n H. induction H as [|c l Hc Hl IH]; simpl; [lia|].
  pose proof (missing_cells_le (col_data c)). lia.
Qed.

Lemma list_sum_zero (l : list nat) :
  list_sum l = 0%nat <-> forall n, In n l -> n = 0%nat.
Proof.
  induction l as [|a l IH]; simpl.
  - split; [contradiction|reflexivity].
  - split.
    + intros H n [<-|Hn]; [lia|]. apply IH; [lia|assumption].
    + intros H. rewrite (H a) by auto. apply IH. auto.
Qed.

(** X7.  In a table with at least one row the missing-data metric is the
    share of missing cells among all cells of the table, in percent: it lies
    between 0 and 100, and it is 0 exactly when no cell is missing. *)
Theorem missing_metric_is_share_of_cells (df : DataFrame) :
  well_formed df -> (0 < shape0 df)%nat ->
  exists r,
    metric "Missing Data (%)" (overview df) = Some (VFloat (Some (r * 100)))
    /\ r = INR (total_missing df) / INR (shape0 df * shape1 df)
    /\ 0 <= r * 100 <= 100
    /\ (r * 100 = 0 <->
        forall c, In c df -> missing_cells (col_data c) = 0%nat).
Proof.
  intros Hwf Hrows.
  assert (Hcols : (0 < shape1 df)%nat).
  { unfold shape1. destruct df; simpl in *; lia. }
  assert (Hn : 0 < INR (shape0 df * shape1 df)).
  { apply (lt_INR 0). nia. }
  exists (INR (total_missing df) / INR (shape0 df * shape1 df)).
  assert (Hle : INR (total_missing df) <= INR (shape0 df * shape1 df)).
  { apply le_INR. now apply total_missing_le. }
  assert (H0 : 0 <= INR (total_missing df)) by apply pos_INR.
  assert (Hinv : 0 < / INR (shape0 df * shape1 df))
    by now apply Rinv_0_lt_compat.
  split; [|split; [reflexivity|split]].
  - unfold overview. simpl. rewrite (missing_ratio_with_rows df Hwf Hrows).
    simpl. do 3 f_equal. unfold spec_missing_ratio.
    rewrite Rsum_map_ratio. fold (total_missing df). unfold shape1 in *.
    rewrite mult_INR. field. split; apply not_0_INR; lia.
  - unfold Rdiv. split; [nra|].
    assert (INR (total_missing df) * / INR (shape0 df * shape1 df) <= 1).
    { apply Rmult_le_reg_r with (INR (shape0 df * shape1 df)); [assumption|].
      rewrite Rmult_assoc, Rinv_l by lra. lra. }
    lra.
  - split.
    + intros Hz. assert (Ht : INR (total_missing df) = 0).
      { unfold Rdiv in Hz.
        destruct (Rmult_integral _ _ Hz) as [Hz'|]; [|lra].
        destruct (Rmult_integral _ _ Hz'); lra. }
      apply (INR_eq _ 0) in Ht. unfold total_missing in Ht.
      rewrite list_sum_zero in Ht. intros c Hc. apply Ht.
      apply in_map_iff. eauto.
    + intros Hall. assert (Ht : total_missing df = 0%nat).
      { unfold total_missing. apply list_sum_zero. intros n Hn'.
        apply in_map_iff in Hn' as (c & <- & Hc). auto. }
      rewrite Ht. simpl. unfold Rdiv. ring.
Qed.

Lemma missing_metric_is_share_of_cells_witness :
  exists r,
    metric "Missing Data (%)" (overview frame_4x5)
    = Some (VFloat (Some (r * 100)))
    /\ r = INR (total_missing frame_4x5)
           / INR (shape0 frame_4x5 * shape1 frame_4x5)
    /\ 0 <= r * 100 <= 100
    /\ (r * 100 = 0 <->
        forall c, In c frame_4x5 -> missing_cells (col_data c) = 0%nat).
Proof.
  apply (missing_metric_is_share_of_cells frame_4x5).
  - repeat constructor.
  - simpl. lia.
Defined.

(** ** Sections that raise nothing *)

Lemma In_columns_inv (f : series -> bool) (df : DataFrame) (name : string) :
  NoDup (columns df) -> In name (columns (select_dtypes f df)) ->
  exists c, In c df /\ col_name c = name /\ f (col_data c) = true
            /\ getitem df name = Ok (col_data c).
Proof.
  intros Hnd H. unfold columns, select_dtypes in H.
  apply in_map_iff in H as (c & <- & Hc). apply filter_In in Hc as [Hc Hf].
  exists c. repeat split; auto. now apply getitem_In.
Qed.

Lemma numeric_frame_ok (df : DataFrame) :
  NoDup (columns df) ->
  numeric_frame df (numeric_cols df) = Ok (numeric_data df).
Proof.
  intros Hnd. unfold numeric_frame, numeric_cols, numeric_data, columns.
  apply mapM_map_ok. intros c Hc.
  apply filter_In in Hc as [Hc Hn]. rewrite getitem_In by assumption.
  destruct (col_data c); try discriminate. reflexivity.
Qed.

Lemma length_numeric_data (df : DataFrame) :
  List.length (numeric_data df) = List.length (numeric_cols df).
Proof.
  unfold numeric_data, numeric_cols, columns. now rewrite !length_map.
Qed.

(** X8.  With distinct column names and at least two numeric columns, the
    correlation section shows, for every stored choice of the method, one
    heat map: the matrix of the chosen method (pearson when the choice fits
    no option) over exactly the numeric columns in the order of the table,
    one row and one column of the matrix for each of them. *)
Theorem correlation_section_shows_heatmap (df : DataFrame) (ui : selection) :
  NoDup (columns df) -> (2 <= List.length (numeric_cols df))%nat ->
  exists m,
    selectbox methods (sel_method ui) = Some m
    /\ ((3 <= sel_method ui)%nat -> m = pearson)
    /\ correlation_section df ui
       = Ok [ Subheader "Correlation Analysis";
              SelectBox "Select Correlation Method" method_names;
              Heatmap (corr m (numeric_data df)) ]
    /\ List.length (corr m (numeric_data df)) = List.length (numeric_cols df)
    /\ Forall (fun row => List.length row = List.length (numeric_cols df))
              (corr m (numeric_data df)).
Proof.
  intros Hnd H2.
  destruct (selectbox_methods (sel_method ui)) as [m Hm].
  exists m. split; [exact Hm|]. split; [|split; [|split]].
  - intros H3. unfold selectbox in Hm.
    destruct (nth_error methods (sel_method ui)) eqn:E.
    + assert (Hs : nth_error methods (sel_method ui) <> None) by congruence.
      apply nth_error_Some in Hs. simpl in Hs. lia.
    + simpl in Hm. congruence.
  - unfold correlation_section, correlate. rewrite Hm. cbn [chosen bind].
    apply Nat.leb_le in H2. rewrite H2.
    rewrite numeric_frame_ok by assumption. reflexivity.
  - unfold corr, enumerate.
    rewrite length_map, length_combine, length_seq, Nat.min_id.
    apply length_numeric_data.
  - unfold corr, enumerate. apply Forall_forall. intros row Hrow.
    apply in_map_iff in Hrow as (a & <- & _).
    rewrite length_map, length_combine, length_seq, Nat.min_id.
    apply length_numeric_data.
Qed.

Lemma correlation_section_shows_heatmap_witness :
  exists m,
    selectbox methods (sel_method first_choices) = Some m
    /\ ((3 <= sel_method first_choices)%nat -> m = pearson)
    /\ correlation_section frame_4x5 first_choices
       = Ok [ Subheader "Correlation Analysis";
              SelectBox "Select Correlation Method" method_names;
              Heatmap (corr m (numeric_data frame_4x5)) ]
    /\ List.length (corr m (numeric_data frame_4x5))
       = List.length (numeric_cols frame_4x5)
    /\ Forall (fun row => List.length row
                          = List.length (numeric_cols frame_4x5))
              (corr m (numeric_data frame_4x5)).
Proof.
  apply (correlation_section_shows_heatmap frame_4x5 first_choices).
  - simpl. repeat constructor; simpl; intuition discriminate.
  - simpl. lia.
Defined.

Lemma groups_of_ok (df : DataFrame) (name : string) :
  NoDup (columns df) -> In name (categorical_cols df) ->
  exists groups, groups_of df name = Ok groups.
Proof.
  intros Hnd H. apply In_columns_inv in H as (c & _ & _ & Hf & Hg); auto.
  unfold groups_of. rewrite Hg.
  destruct (col_data c); try discriminate; simpl; eauto.
Qed.

Lemma sample_ok (df : DataFrame) (gc nc g : string) :
  NoDup (columns df) ->
  In gc (categorical_cols df) -> In nc (numeric_cols df) ->
  exists data, sample df gc nc g = Ok data.
Proof.
  intros Hnd Hg Hn.
  apply In_columns_inv in Hg as (c & _ & _ & Hfc & Hc); auto.
  apply In_columns_inv in Hn as (d & _ & _ & Hfd & Hd); auto.
  unfold sample. rewrite Hc, Hd.
  destruct (col_data c); try discriminate;
    destruct (col_data d); try discriminate; simpl; eauto.
Qed.

(** X9.  With distinct column names the t-test section raises nothing,
    whatever the stored choices of its four selectors are: it always
    produces its widgets, starting with its header. *)
Theorem ttest_section_raises_nothing (sf : R -> R -> R) (df : DataFrame)
        (ui : selection) :
  NoDup (columns df) ->
  exists events,
    ttest_section sf df ui
    = Ok (Subheader "Independent T-Test Analysis" :: events).
Proof.
  intros Hnd. unfold ttest_section.
  destruct (categorical_cols df) as [|c0 cs] eqn:Ec; [simpl; eauto|].
  destruct (numeric_cols df) as [|n0 ns] eqn:En; [simpl; eauto|].
  cbn [is_empty negb andb].
  destruct (selectbox_some (c0 :: cs) (sel_group_col ui)) as [gc Hgc];
    [discriminate|].
  destruct (selectbox_some (n0 :: ns) (sel_numeric_col ui)) as [nc Hnc];
    [discriminate|].
  rewrite Hgc, Hnc. cbn [chosen bind].
  apply selectbox_In in Hgc, Hnc. rewrite <- Ec in Hgc. rewrite <- En in Hnc.
  destruct (groups_of_ok df gc Hnd Hgc) as [groups ->]. cbn [bind].
  destruct (Nat.leb_spec 2 (List.length groups)) as [H2|H2]; [|simpl; eauto].
  destruct (selectbox_some groups (sel_group1 ui)) as [g1 ->].
  { destruct groups; [simpl in H2; lia|discriminate]. }
  destruct (selectbox_some groups (sel_group2 ui)) as [g2 ->].
  { destruct groups; [simpl in H2; lia|discriminate]. }
  cbn [chosen bind].
  destruct (sample_ok df gc nc g1 Hnd Hgc Hnc) as [d1 ->].
  destruct (sample_ok df gc nc g2 Hnd Hgc Hnc) as [d2 ->].
  cbn [bind]. simpl. eauto.
Qed.

Lemma ttest_section_raises_nothing_witness :
  exists events,
    ttest_section cauchy_sf frame_unequal first_and_second
    = Ok (Subheader "Independent T-Test Analysis" :: events).
Proof.
  apply (ttest_section_raises_nothing cauchy_sf frame_unequal first_and_second).
  simpl. repeat constructor; simpl; intuition discriminate.
Defined.

(** ** The rank methods under increasing maps *)

Lemma complete_pairs_on_cells (f : R -> R) (xs ys : list (option R)) :
  complete_pairs xs (on_cells f ys) = map (on_snd f) (complete_pairs xs ys).
Proof.
  revert ys. induction xs as [|x xs IH]; intros [|y ys]; simpl; auto.
  - destruct x; reflexivity.
  - destruct x as [x|], y as [y|]; simpl; rewrite IH; reflexivity.
Qed.

Lemma map_fst_on_snd (f : R -> R) (ps : list (R * R)) :
  map fst (map (on_snd f) ps) = map fst ps.
Proof. rewrite map_map. reflexivity. Qed.

Lemma map_snd_on_snd (f : R -> R) (ps : list (R * R)) :
  map snd (map (on_snd f) ps) = map f (map snd ps).
Proof. rewrite !map_map. reflexivity. Qed.

Lemma increasing_lt (f : R -> R) (a b : R) :
  increasing f -> (f a < f b <-> a < b).
Proof.
  intros Hf. split; [|apply Hf].
  intros H. destruct (Rtotal_order a b) as [Hlt|[Heq|Hgt]]; auto.
  - subst. lra.
  - apply Hf in Hgt. lra.
Qed.

Lemma increasing_eq (f : R -> R) (a b : R) :
  increasing f -> (f a = f b <-> a = b).
Proof.
  intros Hf. split; [|now intros ->].
  intros H. destruct (Rtotal_order a b) as [Hlt|[Heq|Hgt]]; auto.
  - apply Hf in Hlt. lra.
  - apply Hf in Hgt. lra.
Qed.

Lemma rank_increasing (f : R -> R) (l : list R) (x : R) :
  increasing f -> rank (map f l) (f x) = rank l x.
Proof.
  intros Hf. unfold rank, count_lt, count_eq.
  rewrite (length_filter_map _
             (fun y => if Rlt_dec y x then true else false) f).
  - rewrite (length_filter_map _
               (fun y => if Req_dec_T y x then true else false) f); auto.
    intros a. pose proof (increasing_eq f a x Hf).
    destruct (Req_dec_T (f a) (f x)), (Req_dec_T a x); tauto.
  - intros a. pose proof (increasing_lt f a x Hf).
    destruct (Rlt_dec (f a) (f x)), (Rlt_dec a x); tauto.
Qed.

Lemma ranks_increasing (f : R -> R) (l : list R) :
  increasing f -> ranks (map f l) = ranks l.
Proof.
  intros Hf. unfold ranks. rewrite map_map. apply map_ext.
  intros x. now apply rank_increasing.
Qed.

Lemma nancorr_spearman_increasing (f : R -> R) (xs ys : list (option R)) :
  increasing f ->
  nancorr_spearman xs (on_cells f ys) = nancorr_spearman xs ys.
Proof.
  intros Hf. unfold nancorr_spearman. cbv zeta.
  rewrite complete_pairs_on_cells, length_map.
  now rewrite map_fst_on_snd, map_snd_on_snd, ranks_increasing.
Qed.

Lemma sign_of_product (u v w : R) :
  (0 < v <-> 0 < w) -> (v < 0 <-> w < 0) ->
  (0 < u * v <-> 0 < u * w) /\ (u * v < 0 <-> u * w < 0).
Proof.
  intros Hp Hn.
  destruct (Rtotal_order u 0) as [Hu|[Hu|Hu]];
    destruct (Rtotal_order v 0) as [Hv|[Hv|Hv]];
    destruct (Rtotal_order w 0) as [Hw|[Hw|Hw]];
    try (exfalso; lra); try (exfalso; tauto); subst;
    rewrite ?Rmult_0_l, ?Rmult_0_r; split; split; intros H; try lra;
    try nra.
Qed.

Lemma kendalltau_increasing (f : R -> R) (ps : list (R * R)) :
  increasing f -> kendalltau (map (on_snd f) ps) = kendalltau ps.
Proof.
  intros Hf.
  assert (Hs : forall p q : R * R,
             (0 < f (snd p) - f (snd q) <-> 0 < snd p - snd q)
             /\ (f (snd p) - f (snd q) < 0 <-> snd p - snd q < 0)).
  { intros p q. pose proof (increasing_lt f (snd p) (snd q) Hf).
    pose proof (increasing_lt f (snd q) (snd p) Hf). split; split; lra. }
  unfold kendalltau. cbv zeta.
  rewrite (pair_count_map concordant concordant),
          (pair_count_map discordant discordant),
          (pair_count_map x_untied x_untied),
          (pair_count_map y_untied y_untied); auto.
  - intros p q. unfold y_untied, on_snd. cbn [snd].
    pose proof (increasing_eq f (snd p) (snd q) Hf).
    destruct (Req_dec_T (f (snd p)) (f (snd q))), (Req_dec_T (snd p) (snd q));
      tauto.
  - intros p q. unfold discordant, on_snd. cbn [fst snd].
    destruct (Hs p q) as [Hp Hn].
    destruct (sign_of_product (fst p - fst q) _ _ Hp Hn) as [_ H].
    destruct (Rlt_dec _ 0), (Rlt_dec _ 0); tauto.
  - intros p q. unfold concordant, on_snd. cbn [fst snd].
    destruct (Hs p q) as [Hp Hn].
    destruct (sign_of_product (fst p - fst q) _ _ Hp Hn) as [H _].
    destruct (Rlt_dec 0 _), (Rlt_dec 0 _); tauto.
Qed.

Lemma corr_entry_increasing_r (m : method) (i j : nat) (f : R -> R)
      (xs ys : list (option R)) :
  increasing f -> m <> pearson ->
  corr_entry m i j xs (on_cells f ys) = corr_entry m i j xs ys.
Proof.
  intros Hf Hm. destruct m; [contradiction| |]; cbn [corr_entry].
  - now apply nancorr_spearman_increasing.
  - cbv zeta. rewrite complete_pairs_on_cells, length_map.
    now rewrite kendalltau_increasing.
Qed.

(** X11.  The spearman and kendall entries depend on the order of the
    values only: replacing the values of either column by their images
    under strictly increasing maps leaves the entry unchanged. *)
Theorem rank_methods_see_only_the_order (m : method) (i j : nat)
        (f g : R -> R) (xs ys : list (option R)) :
  increasing f -> increasing g -> m <> pearson ->
  corr_entry m i j (on_cells f xs) (on_cells g ys) = corr_entry m i j xs ys.
Proof.
  intros Hf Hg Hm.
  rewrite corr_entry_increasing_r by assumption.
  rewrite corr_entry_sym, corr_entry_increasing_r by assumption.
  apply corr_entry_sym.
Qed.

Lemma increasing_cube : increasing (fun x => x * x * x).
Proof.
  intros a b H.
  assert (E : b * b * b - a * a * a
              = (b - a) * (a * a + a * b + b * b)) by ring.
  assert (0 < a * a + a * b + b * b).
  { replace (a * a + a * b + b * b)
      with ((a + b / 2) * (a + b / 2) + 3 / 4 * (b * b)) by field.
    pose proof (Rle_0_sqr (a + b / 2)). pose proof (Rle_0_sqr b).
    unfold Rsqr in *.
    destruct (Req_dec_T b 0) as [Hb|Hb].
    - subst b. assert (0 < (a + 0 / 2) * (a + 0 / 2)) by nra. nra.
    - assert (0 < b * b) by nra. nra. }
  assert (0 < (b - a) * (a * a + a * b + b * b))
    by (apply Rmult_lt_0_compat; lra).
  lra.
Qed.

Lemma rank_methods_see_only_the_order_witness :
  corr_entry kendall 0 1
             (on_cells (fun x => x * x * x) [Some 1; None; Some 3])
             (on_cells (fun x => x + 1) [Some 2; Some 5; Some 4])
  = corr_entry kendall 0 1 [Some 1; None; Some 3] [Some 2; Some 5; Some 4].
Proof.
  apply (rank_methods_see_only_the_order kendall 0 1
           (fun x => x * x * x) (fun x => x + 1)).
  - exact increasing_cube.
  - intros a b H. lra.
  - discriminate.
Defined.

(** ** The diagonal of the matrix *)

Lemma ranks_of_constant (l : list R) : ssqdm l = 0 -> ssqdm (ranks l) = 0.
Proof.
  intros H. apply ssqdm_of_constant. intros x y Hx Hy.
  unfold ranks in Hx, Hy.
  apply in_map_iff in Hx as (a & <- & Ha).
  apply in_map_iff in Hy as (b & <- & Hb).
  now rewrite (ssqdm_zero_all_mean l H a Ha), (ssqdm_zero_all_mean l H b Hb).
Qed.

Lemma pearson_r_no_spread (xs ys : list R) :
  ssqdm xs = 0 -> pearson_r xs ys = None.
Proof.
  intros H. unfold pearson_r. cbv zeta. rewrite H, Rmult_0_l, sqrt_0.
  destruct (Req_dec_T 0 0) as [_|C]; [reflexivity|now destruct C].
Qed.

Lemma spread_iff_not_all_equal (l : list R) :
  ssqdm l <> 0 <-> ~ (forall a b, In a l -> In b l -> a = b).
Proof.
  split.
  - intros Hs Hall. apply Hs. now apply ssqdm_of_constant.
  - intros Hne Hz. apply Hne. intros a b Ha Hb.
    now rewrite (ssqdm_zero_all_mean l Hz a Ha), (ssqdm_zero_all_mean l Hz b Hb).
Qed.

(** X13.  The diagonal of the rank methods.  For spearman and kendall the
    diagonal entry of a column is 1 or NaN.  For spearman it is 1 exactly
    when the present values of the column are not all equal, and NaN for a
    constant column; for kendall it is 1 as soon as the column has one
    present value, constant or not, and NaN for a column without values. *)
Theorem diagonal_of_the_matrix (m : method) (i : nat) (xs : list (option R)) :
  (m <> pearson ->
   corr_entry m i i xs xs = Some 1 \/ corr_entry m i i xs xs = None)
  /\ (m = spearman ->
      (corr_entry m i i xs xs = Some 1 <->
       ~ (forall a b, In a (dropna xs) -> In b (dropna xs) -> a = b)))
  /\ (m = kendall ->
      (corr_entry m i i xs xs = Some 1 <-> dropna xs <> [])).
Proof.
  assert (Hs : corr_entry spearman i i xs xs = Some 1
               <-> ssqdm (dropna xs) <> 0).
  { split; [|apply corr_entry_diag].
    intros H Hz. cbn [corr_entry] in H.
    unfold nancorr_spearman in H. cbv zeta in H.
    rewrite complete_pairs_diag in H.
    destruct (_ <? 1)%nat; [discriminate|].
    rewrite pearson_r_no_spread in H; [discriminate|].
    apply ranks_of_constant. rewrite map_map. simpl. now rewrite map_id. }
  assert (Hk : corr_entry kendall i i xs xs = Some 1 <-> dropna xs <> []).
  { cbn [corr_entry]. cbv zeta.
    rewrite complete_pairs_diag, length_map, Nat.eqb_refl.
    destruct (dropna xs) as [|x l]; simpl; split; congruence. }
  split; [|split].
  - intros Hm. destruct m; [contradiction| |].
    + destruct (Req_dec_T (ssqdm (dropna xs)) 0) as [Hz|Hz].
      * right. destruct (corr_entry spearman i i xs xs) as [r|] eqn:E; auto.
        exfalso. cbn [corr_entry] in E. unfold nancorr_spearman in E.
        cbv zeta in E. rewrite complete_pairs_diag in E.
        destruct (_ <? 1)%nat; [discriminate|].
        rewrite pearson_r_no_spread in E; [discriminate|].
        apply ranks_of_constant. rewrite map_map. simpl. now rewrite map_id.
      * left. now apply corr_entry_diag.
    + cbn [corr_entry]. cbv zeta.
      rewrite complete_pairs_diag, length_map, Nat.eqb_refl.
      destruct (dropna xs); simpl; auto.
  - intros ->. now rewrite Hs, spread_iff_not_all_equal.
  - intros ->. exact Hk.
Qed.

(** ** The data preview *)

Lemma len_head_series (s : series) : len (head_series s) = Nat.min 5 (len s).
Proof. destruct s; cbn [head_series len]; apply length_firstn. Qed.

Lemma head_series_idem (s : series) :
  head_series (head_series s) = head_series s.
Proof.
  destruct s; cbn [head_series]; f_equal; rewrite firstn_firstn;
    reflexivity.
Qed.

Lemma select_dtypes_head (f : series -> bool) (df : DataFrame) :
  (forall s, f (head_series s) = f s) ->
  columns (select_dtypes f (head df)) = columns (select_dtypes f df).
Proof.
  intros Hf. unfold columns, select_dtypes, head.
  induction df as [|c df IH]; simpl; auto.
  rewrite Hf. destruct (f (col_data c)); simpl; now rewrite IH.
Qed.

(** X14.  The data preview has every column of the table, under its name
    and with its dtype, so the two column lists of the page are those of
    the preview too; it has the first five rows, or all of them when the
    table has fewer; and previewing the preview changes nothing. *)
Theorem preview_keeps_the_columns (df : DataFrame) :
  well_formed df ->
  columns (head df) = columns df
  /\ categorical_cols (head df) = categorical_cols df
  /\ numeric_cols (head df) = numeric_cols df
  /\ shape0 (head df) = Nat.min 5 (shape0 df)
  /\ shape1 (head df) = shape1 df
  /\ well_formed (head df)
  /\ head (head df) = head df.
Proof.
  intros Hwf.
  assert (Hrows : shape0 (head df) = Nat.min 5 (shape0 df)).
  { destruct df as [|c df]; [reflexivity|].
    cbn [head map shape0 col_data]. apply len_head_series. }
  split; [|split; [|split; [|split; [|split; [|split]]]]].
  - unfold columns, head. rewrite map_map. reflexivity.
  - apply select_dtypes_head. now intros [].
  - apply select_dtypes_head. now intros [].
  - exact Hrows.
  - unfold shape1, head. apply length_map.
  - unfold well_formed in *. rewrite Hrows. unfold head.
    rewrite Forall_map. rewrite Forall_forall in *.
    intros c Hc. cbn [col_data]. rewrite len_head_series.
    now rewrite (Hwf c Hc).
  - unfold head. rewrite map_map. apply map_ext. intros c.
    cbn [col_name col_data]. now rewrite head_series_idem.
Qed.

Lemma preview_keeps_the_columns_witness :
  columns (head frame_seven_rows) = columns frame_seven_rows
  /\ categorical_cols (head frame_seven_rows)
     = categorical_cols frame_seven_rows
  /\ numeric_cols (head frame_seven_rows) = numeric_cols frame_seven_rows
  /\ shape0 (head frame_seven_rows) = Nat.min 5 (shape0 frame_seven_rows)
  /\ shape1 (head frame_seven_rows) = shape1 frame_seven_rows
  /\ well_formed (head frame_seven_rows)
  /\ head (head frame_seven_rows) = head frame_seven_rows.
Proof.
  apply (preview_keeps_the_columns frame_seven_rows).
  repeat constructor.
Defined.

(** ** The KPI section and the overview *)

Lemma metric_after_cards (label : string) (cs : list column)
      (rest : list event) :
  metric label (map spec_card cs ++ rest) = metric label rest.
Proof.
  induction cs as [|c cs IH]; simpl; auto.
  unfold spec_card at 1. destruct (col_data c); simpl; exact IH.
Qed.

(** X15.  The overview of the table belongs to the branch of the KPI
    section that has numeric columns.  A table without numeric columns gets
    the warning only, with no row count, column count or missing-data
    metric; a table with numeric columns (and distinct column names) gets
    its cards followed by the three metrics of the whole table. *)
Theorem overview_needs_a_numeric_column (df : DataFrame) :
  NoDup (columns df) ->
  exists events,
    kpi_section df = Ok events
    /\ (numeric_cols df = [] ->
        events = [ Subheader "Beautiful Auto KPIs Dashboard";
                   Warning "No numerical columns found to calculate KPIs." ]
        /\ metric "Total Rows" events = None
        /\ metric "Total Columns" events = None
        /\ metric "Missing Data (%)" events = None)
    /\ (numeric_cols df <> [] ->
        metric "Total Rows" events = Some (VInt (Z.of_nat (shape0 df)))
        /\ metric "Total Columns" events = Some (VInt (Z.of_nat (shape1 df)))
        /\ metric "Missing Data (%)" events
           = Some (VFloat (option_map (fun r => r * 100) (missing_ratio df)))).
Proof.
  intros Hnd. unfold kpi_section.
  destruct (numeric_cols df) as [|n ns] eqn:En.
  - simpl. eexists. split; [reflexivity|]. split; [|congruence].
    intros _. repeat split.
  - cbn [List.length Nat.eqb].
    assert (E : kpi_cards df
                = Ok (map spec_card (firstn 3 (select_dtypes is_number df)))).
    { unfold kpi_cards, top_numeric, numeric_cols, columns.
      rewrite firstn_map. apply mapM_map_ok.
      intros c Hc. apply In_firstn in Hc. apply filter_In in Hc as [Hc Hn].
      now apply kpi_card_spec. }
    rewrite E. cbn [bind]. eexists. split; [reflexivity|].
    split; [discriminate|]. intros _.
    cbn [metric]. rewrite !metric_after_cards. repeat split.
Qed.

Lemma overview_needs_a_numeric_column_witness :
  exists events,
    kpi_section frame_without_rows = Ok events
    /\ (numeric_cols frame_without_rows = [] ->
        events = [ Subheader "Beautiful Auto KPIs Dashboard";
                   Warning "No numerical columns found to calculate KPIs." ]
        /\ metric "Total Rows" events = None
        /\ metric "Total Columns" events = None
        /\ metric "Missing Data (%)" events = None)
    /\ (numeric_cols frame_without_rows <> [] ->
        metric "Total Rows" events
        = Some (VInt (Z.of_nat (shape0 frame_without_rows)))
        /\ metric "Total Columns" events
           = Some (VInt (Z.of_nat (shape1 frame_without_rows)))
        /\ metric "Missing Data (%)" events
           = Some (VFloat (option_map (fun r => r * 100)
                                      (missing_ratio frame_without_rows)))).
Proof.
  apply (overview_needs_a_numeric_column frame_without_rows).
  simpl. repeat constructor; simpl; intuition discriminate.
Defined.

(** ** The missing-data ratio in the KPI section *)

(** C6, as the code has it.  In a frame whose columns all have the frame's
    row count and at least one row, [df.isnull().mean().mean()] is the mean
    over the columns of the column's missing cells over the row count.  The
    script evaluates it, and shows it in percent, only when the frame has
    a numeric column; without one it shows its warning and no ratio. *)
Theorem missing_ratio_mean_of_columns (df : DataFrame) :
  well_formed df -> NoDup (columns df) ->
  ((0 < shape0 df)%nat -> missing_ratio df = Some (spec_missing_ratio df))
  /\ (numeric_cols df <> [] ->
      exists events,
        kpi_section df = Ok events
        /\ metric "Missing Data (%)" events
           = Some (VFloat (option_map (fun r => r * 100) (missing_ratio df))))
  /\ (numeric_cols df = [] ->
      exists events,
        kpi_section df = Ok events
        /\ metric "Missing Data (%)" events = None
        /\ existsb is_report events = true).
Proof.
  intros Hwf Hnd. split; [now apply missing_ratio_with_rows|].
  unfold kpi_section. split.
  - intros Hn. destruct (numeric_cols df) as [|n ns] eqn:En; [contradiction|].
    cbn [List.length Nat.eqb].
    assert (E : kpi_cards df
                = Ok (map spec_card (firstn 3 (select_dtypes is_number df)))).
    { unfold kpi_cards, top_numeric, numeric_cols, columns.
      rewrite firstn_map. apply mapM_map_ok.
      intros c Hc. apply In_firstn in Hc. apply filter_In in Hc as [Hc Hk].
      now apply kpi_card_spec. }
    rewrite E. cbn [bind]. eexists. split; [reflexivity|].
    cbn [metric]. now rewrite metric_after_cards.
  - intros ->. simpl. eexists. split; [reflexivity|]. split; reflexivity.
Qed.

(** The example of C6: 2, 1, 2 and 0 missing cells in four columns of five
    rows give a ratio of a quarter, shown as 25 percent. *)
Lemma missing_ratio_mean_of_columns_witness :
  well_formed frame_4x5
  /\ shape0 frame_4x5 = 5%nat
  /\ missing_ratio frame_4x5 = Some (1 / 4)
  /\ exists events,
       kpi_section frame_4x5 = Ok events
       /\ metric "Missing Data (%)" events
          = Some (VFloat (option_map (fun r => r * 100)
                                     (missing_ratio frame_4x5))).
Proof.
  assert (Hwf : well_formed frame_4x5) by (repeat constructor).
  assert (Hnd : NoDup (columns frame_4x5)).
  { simpl. repeat constructor; simpl; intuition discriminate. }
  split; [exact Hwf|]. split; [reflexivity|].
  destruct (missing_ratio_mean_of_columns frame_4x5 Hwf Hnd) as (H & H' & _).
  split.
  - rewrite H by (simpl; lia). f_equal.
    unfold spec_missing_ratio. simpl. lra.
  - apply H'. discriminate.
Defined.

(** C6 as stated fails on a frame without rows.  Such a frame has no
    numeric column, so the ratio is never evaluated: the section shows its
    warning and no ratio at all, where the claim has a ratio of 0. *)
Lemma missing_ratio_without_rows :
  shape0 frame_without_rows = 0%nat
  /\ numeric_cols frame_without_rows = []
  /\ exists events,
       kpi_section frame_without_rows = Ok events
       /\ events = [ Subheader "Beautiful Auto KPIs Dashboard";
                     Warning "No numerical columns found to calculate KPIs." ]
       /\ metric "Missing Data (%)" events = None
       /\ metric "Missing Data (%)" events <> Some (VFloat (Some 0)).
Proof.
  split; [reflexivity|]. split; [reflexivity|].
  eexists. split; [reflexivity|]. split; [reflexivity|].
  split; [reflexivity|discriminate].
Qed.

(** * The statistics in double precision *)

Section Doubles.
Import PrimFloat FloatOps FloatAxioms SpecFloat.
Local Open Scope float_scope.

(** ** Differences and quotients that are exact *)

Lemma SF64sub_diag (s : spec_float) :
  SF64sub s s = S754_zero false \/ SF64sub s s = S754_nan.
Proof.
  destruct s as [b|b| |b m e].
  - left. now destruct b.
  - right. now destruct b.
  - now right.
  - left. unfold SF64sub, SFsub. cbv zeta. now rewrite Z.sub_diag.
Qed.

Lemma float_of_zero (b : bool) (x : float) :
  Prim2SF x = S754_zero b -> x = 0 \/ x = -0.
Proof.
  intros H. rewrite <- (SF2Prim_Prim2SF x), H.
  destruct b; [right|left]; reflexivity.
Qed.

Lemma float_of_nan (x : float) : Prim2SF x = S754_nan -> x = nan.
Proof. intros H. rewrite <- (SF2Prim_Prim2SF x), H. reflexivity. Qed.

(** [(m - m) / d] is a zero or a NaN, whatever [m] and [d] are. *)
Lemma difference_of_equals (m d : float) : zero_or_nan ((m - m) / d).
Proof.
  assert (H : Prim2SF ((m - m) / d) = S754_nan
              \/ exists b, Prim2SF ((m - m) / d) = S754_zero b).
  { rewrite div_spec, sub_spec.
    destruct (SF64sub_diag (Prim2SF m)) as [-> | ->]; [|now left].
    unfold SF64div, SFdiv.
    destruct (Prim2SF d) as [b|b| |b mm e]; eauto. }
  unfold zero_or_nan. destruct H as [H|[b H]].
  - right. right. now apply float_of_nan.
  - apply float_of_zero in H. tauto.
Qed.

Lemma equal_means_give_zero_or_nan (sum : list float -> float)
      (sf : float -> float -> float) (a b : list float) :
  (forall df, sf df 0 = 0.5) -> Binary64.mean sum a = Binary64.mean sum b ->
  zero_or_nan (fst (Binary64.ttest_ind sum sf a b))
  /\ (snd (Binary64.ttest_ind sum sf a b) <? Binary64.alpha) = false.
Proof.
  intros Hsf Hm. unfold Binary64.ttest_ind. cbv zeta. cbn [fst snd].
  rewrite Hm.
  pose proof (difference_of_equals (Binary64.mean sum b)
                                   (Binary64.welch_denom sum a b)) as Ht.
  split; [exact Ht|].
  destruct Ht as [-> | [-> | ->]].
  - change (is_nan 0) with false. change (is_infinity 0) with false.
    change (abs 0) with 0. cbv iota. now rewrite Hsf.
  - change (is_nan (-0)) with false. change (is_infinity (-0)) with false.
    change (abs (-0)) with 0. cbv iota. now rewrite Hsf.
  - reflexivity.
Qed.

Lemma ttest_block_tested64 (sum : list float -> float)
      (sf : float -> float -> float) (d1 d2 : list float) :
  (1 < List.length d1)%nat -> (1 < List.length d2)%nat ->
  Binary64.ttest_block sum sf d1 d2
  = Binary64.Tested
      (fst (Binary64.ttest_ind sum sf d1 d2))
      (Z.of_nat (List.length d1) + Z.of_nat (List.length d2) - 2)
      (snd (Binary64.ttest_ind sum sf d1 d2))
      (if snd (Binary64.ttest_ind sum sf d1 d2) <? Binary64.alpha
       then true else false)
      (Binary64.mean sum d1) (Binary64.mean sum d2).
Proof.
  intros H1 H2. unfold Binary64.ttest_block.
  apply Nat.ltb_lt in H1, H2. rewrite H1, H2. reflexivity.
Qed.

(** C5, as the code has it.  When the test runs, the block shows the
    p-value that [ttest_ind] computed and the verdict "significant" exactly
    when that p-value is below 0.05, which a NaN is not.  Two samples whose
    computed means are equal are not significant, whatever their variances;
    of Student's survival function only its value one half at 0 is used. *)
Theorem significance_flag (sum : list float -> float)
        (sf : float -> float -> float) (d1 d2 : list float) :
  (forall df, sf df 0 = 0.5) ->
  (1 < List.length d1)%nat -> (1 < List.length d2)%nat ->
  exists t dof p significant,
    Binary64.ttest_block sum sf d1 d2
    = Binary64.Tested t dof p significant
                      (Binary64.mean sum d1) (Binary64.mean sum d2)
    /\ p = snd (Binary64.ttest_ind sum sf d1 d2)
    /\ (significant = true <-> (p <? Binary64.alpha) = true)
    /\ (p = nan -> significant = false)
    /\ (Binary64.mean sum d1 = Binary64.mean sum d2 -> significant = false).
Proof.
  intros Hsf H1 H2. do 4 eexists.
  split; [now apply ttest_block_tested64|]. split; [reflexivity|].
  split; [|split].
  - now destruct (_ <? _).
  - now intros ->.
  - intros Hm.
    destruct (equal_means_give_zero_or_nan sum sf d1 d2 Hsf Hm) as [_ ->]. reflexivity.
Qed.

Lemma significance_flag_witness :
  exists t dof p significant,
    Binary64.ttest_block Binary64.sum_in_order Binary64.student2_sf
                         [1; 3] [0; 4]
    = Binary64.Tested t dof p significant
                      (Binary64.mean Binary64.sum_in_order [1; 3])
                      (Binary64.mean Binary64.sum_in_order [0; 4])
    /\ p = snd (Binary64.ttest_ind Binary64.sum_in_order Binary64.student2_sf
                                   [1; 3] [0; 4])
    /\ (significant = true <-> (p <? Binary64.alpha) = true)
    /\ (p = nan -> significant = false)
    /\ (Binary64.mean Binary64.sum_in_order [1; 3]
        = Binary64.mean Binary64.sum_in_order [0; 4] ->
        significant = false).
Proof.
  apply (significance_flag Binary64.sum_in_order Binary64.student2_sf
           [1; 3] [0; 4]).
  - intros df. reflexivity.
  - simpl. lia.
  - simpl. lia.
Defined.

(** C5 as stated fails.  Seven cells and two cells that all hold one
    number are two samples with one mean and one variance, yet the mean of
    the seven, added up in their order, is computed one unit in the last
    place below the number and the block declares the difference
    significant: for cells of [0.1 * 2^-500] the squared deviations
    underflow to zero, the statistic is infinite and the p-value 0 whatever
    the survival function is; for cells of 0.1 the statistic is [-sqrt 6]
    on 6 degrees of freedom, to which Student's distribution gives a
    two-sided p-value of 0.0498. *)
Lemma equal_samples_declared_significant :
  (forall sf,
     Binary64.ttest_block Binary64.sum_in_order sf
                          (repeat 0x1.999999999999ap-504 7)
                          (repeat 0x1.999999999999ap-504 2)
     = Binary64.Tested neg_infinity 7 0 true
                       0x1.9999999999999p-504 0x1.999999999999ap-504)
  /\ (forall sf,
        (2 * sf 6 0x1.3988e1409212ep+1 <? Binary64.alpha) = true ->
        Binary64.ttest_block Binary64.sum_in_order sf
                             (repeat (1 / 10) 7) (repeat (1 / 10) 2)
        = Binary64.Tested (-0x1.3988e1409212ep+1) 7
                          (2 * sf 6 0x1.3988e1409212ep+1) true
                          0x1.9999999999999p-4 (1 / 10)).
Proof.
  split.
  - intros sf. vm_compute. reflexivity.
  - intros sf H.
    rewrite ttest_block_tested64 by (simpl; lia).
    assert (E : Binary64.ttest_ind Binary64.sum_in_order sf
                                   (repeat (1 / 10) 7) (repeat (1 / 10) 2)
                = (-0x1.3988e1409212ep+1, 2 * sf 6 0x1.3988e1409212ep+1)).
    { unfold Binary64.ttest_ind. cbv zeta.
      replace (Binary64.welch_df Binary64.sum_in_order
                                 (repeat (1 / 10) 7) (repeat (1 / 10) 2))
        with 6 by (vm_compute; reflexivity).
      replace ((Binary64.mean Binary64.sum_in_order (repeat (1 / 10) 7)
                - Binary64.mean Binary64.sum_in_order (repeat (1 / 10) 2))
               / Binary64.welch_denom Binary64.sum_in_order
                                      (repeat (1 / 10) 7) (repeat (1 / 10) 2))
        with (-0x1.3988e1409212ep+1) by (vm_compute; reflexivity).
      reflexivity. }
    rewrite E. cbn [fst snd]. rewrite H.
    f_equal; vm_compute; reflexivity.
Qed.

(** ** The correlation matrix *)






(** ** The same label in both selectors *)

(** C10, as the code has it.  The two group selectors offer the same
    labels and nothing compares the two choices: a run in which both hold
    one label extracts the same sample twice and, when it has more than
    one value, runs the test on it and shows its results (no error), with
    the two means equal.  The statistic of a sample against itself is a
    zero or a NaN in double precision: the difference of the two computed
    means is an exact zero, which the denominator turns into a zero, or
    into a NaN when it is zero itself. *)
Theorem same_label_is_tested (sf : R -> R -> R) (df : DataFrame)
        (ui : selection) (g : string) (d1 d2 : list R) :
  extracted df ui = Ok (Some ((g, d1), (g, d2))) ->
  (1 < List.length d1)%nat ->
  d2 = d1
  /\ (exists prefix,
        forallb is_selector prefix = true
        /\ ttest_section sf df ui = Ok (prefix ++ ttest_block sf g g d1 d1))
  /\ existsb is_report (ttest_block sf g g d1 d1) = false
  /\ In (BarPlot [g; g] [data_mean d1; data_mean d1])
        (ttest_block sf g g d1 d1)
  /\ (forall (sum : list float -> float) (sf64 : float -> float -> float)
          (x : list float),
        (1 < List.length x)%nat ->
        exists t dof p significant,
          Binary64.ttest_block sum sf64 x x
          = Binary64.Tested t dof p significant
                            (Binary64.mean sum x) (Binary64.mean sum x)
          /\ zero_or_nan t).
Proof.
  intros He Hn.
  assert (E : d1 = d2) by (eapply extracted_same_label; eauto).
  subst d2. split; [reflexivity|].
  split; [now apply ttest_section_extracted|].
  split; [|split].
  - rewrite ttest_block_tested by assumption. simpl.
    now destruct (nan_ltb _ _).
  - rewrite ttest_block_tested by assumption. simpl. auto 10.
  - intros sum sf64 x Hx. do 4 eexists.
    split; [now apply ttest_block_tested64|].
    unfold Binary64.ttest_ind. cbv zeta. cbn [fst].
    apply difference_of_equals.
Qed.

Lemma same_label_is_tested_witness :
  [1; 2; 3]%R = [1; 2; 3]%R
  /\ (exists prefix,
        forallb is_selector prefix = true
        /\ ttest_section cauchy_sf frame_small_group first_choices
           = Ok (prefix
                 ++ ttest_block cauchy_sf "a" "a" [1; 2; 3]%R [1; 2; 3]%R))
  /\ existsb is_report
       (ttest_block cauchy_sf "a" "a" [1; 2; 3]%R [1; 2; 3]%R) = false
  /\ In (BarPlot ["a"; "a"] [data_mean [1; 2; 3]%R; data_mean [1; 2; 3]%R])
        (ttest_block cauchy_sf "a" "a" [1; 2; 3]%R [1; 2; 3]%R)
  /\ (forall (sum : list float -> float) (sf64 : float -> float -> float)
          (x : list float),
        (1 < List.length x)%nat ->
        exists t dof p significant,
          Binary64.ttest_block sum sf64 x x
          = Binary64.Tested t dof p significant
                            (Binary64.mean sum x) (Binary64.mean sum x)
          /\ zero_or_nan t).
Proof.
  apply (same_label_is_tested cauchy_sf frame_small_group first_choices
           "a" [1; 2; 3]%R [1; 2; 3]%R).
  - reflexivity.
  - simpl. lia.
Defined.

(** Three cells of 0.1, all equal, give the statistic 0 (their mean is
    computed as 0.10000000000000002 and their variance is not zero); two
    cells of 5 give a NaN. *)
Lemma statistic_of_a_sample_against_itself :
  fst (Binary64.ttest_ind Binary64.sum_in_order Binary64.student2_sf
                          (repeat (1 / 10) 3) (repeat (1 / 10) 3)) = 0
  /\ Binary64.mean Binary64.sum_in_order (repeat (1 / 10) 3)
     = 0x1.999999999999bp-4
  /\ Binary64.ttest_block Binary64.sum_in_order Binary64.student2_sf
                          [5; 5] [5; 5]
     = Binary64.Tested nan 2 nan false 5 5.
Proof. split; [|split]; vm_compute; reflexivity. Qed.

End Doubles.
